(** * net_device_parser: ACL parsing and the IPv4 address model

    A shallow embedding of [net_device_parser/models.py] and
    [net_device_parser/acl_parser.py], with the properties of the
    specification stated and proved over it.

    Conventions of the embedding.
    - Python [str] values are [string]; a character is a code point in
      [0, 255] (the Latin-1 range).  The character classes of the [re]
      module are given for that range.
    - Python [int] values are [Z] (unbounded); [<<], [>>] and [&] are
      [Z.shiftl], [Z.shiftr] and [Z.land].  The conversions between
      [int] and [str] carry the interpreter's limit of 4300 decimal
      digits, beyond which they raise [ValueError].
    - A raised exception is the [Err] branch of [result]; the logger
      of the parser is a list of log records passed explicitly.
    - [re] patterns are values of [Re.regex], run by a backtracking
      matcher with greedy quantifiers and ordered alternatives. *)

From Stdlib Require Import String Ascii List ZArith Bool Arith Lia.
From Stdlib Require Import DecimalString.
Import ListNotations.

Local Open Scope string_scope.

(** ** Characters *)

Definition LF : ascii := "010"%char.
Definition DQUOTE : ascii := "034"%char.

Definition code (c : ascii) : nat := nat_of_ascii c.

(** [[0-9]], and [\d] on code points below 256. *)
Definition is_digit (c : ascii) : bool :=
  (48 <=? code c)%nat && (code c <=? 57)%nat.

(** [\s]: the code points below 256 for which [str.isspace] holds. *)
Definition is_space (c : ascii) : bool :=
  let n := code c in
  ((9 <=? n)%nat && (n <=? 13)%nat) || ((28 <=? n)%nat && (n <=? 32)%nat)
  || (n =? 133)%nat || (n =? 160)%nat.

(** [\S] *)
Definition is_nonspace (c : ascii) : bool := negb (is_space c).

(** [.] without DOTALL: anything but a line feed. *)
Definition is_dot (c : ascii) : bool := negb (Ascii.eqb c LF).

(** [[0-9.]] *)
Definition is_ipchar (c : ascii) : bool := is_digit c || Ascii.eqb c "."%char.

(** ** Exceptions and results *)

(** The exceptions that the program raises, each with the name of its
    class; [class_of] and [Exceptions.base] below give the classes and
    their bases. *)
Inductive exn : Type :=
| IPv4AddressException (msg : string)
| ParserExceptionInvalidEntry (msg : string)
| ValidationError       (* pydantic: a field value is refused; a [ValueError] *)
| TypeError
| ValueError
| AttributeError.

Inductive result (A : Type) : Type :=
| Ok (a : A)
| Err (e : exn).

Arguments Ok {A} a.
Arguments Err {A} e.

Definition bind {A B : Type} (m : result A) (f : A -> result B) : result B :=
  match m with
  | Ok a => f a
  | Err e => Err e
  end.

Notation "'let*' x ':=' m 'in' f" := (bind m (fun x => f))
  (at level 10, x name, m at level 100, f at level 200).

(** ** Built-in operations on [str] and [int] *)

Module Py.

(** [s.startswith(p)] *)
Fixpoint startswith (p s : string) : bool :=
  match p with
  | EmptyString => true
  | String a p' =>
      match s with
      | String b s' => Ascii.eqb a b && startswith p' s'
      | EmptyString => false
      end
  end.

(** [s.replace(old, new)] for a non-empty [old]: the occurrences of [old]
    are taken from left to right without overlap.  [skip] counts the
    characters of an occurrence that are still to be dropped. *)
Fixpoint replace_from (old new : string) (skip : nat) (s : string) : string :=
  match s with
  | EmptyString => EmptyString
  | String c s' =>
      match skip with
      | S n => replace_from old new n s'
      | O =>
          if startswith old s
          then new ++ replace_from old new (String.length old - 1) s'
          else String c (replace_from old new 0 s')
      end
  end.

Definition replace (old new s : string) : string := replace_from old new 0 s.

(** [s.split(sep)] for a one-character separator. *)
Fixpoint split (sep : ascii) (s : string) : list string :=
  match s with
  | EmptyString => [EmptyString]
  | String c s' =>
      if Ascii.eqb c sep then EmptyString :: split sep s'
      else match split sep s' with
           | h :: t => String c h :: t
           | [] => [String c EmptyString]
           end
  end.

(** [sep.join(parts)] *)
Fixpoint join (sep : string) (parts : list string) : string :=
  match parts with
  | [] => EmptyString
  | [p] => p
  | p :: rest => p ++ sep ++ join sep rest
  end.

Definition digit_value (c : ascii) : Z := Z.of_nat (code c - 48).

Fixpoint int_digits (acc : Z) (s : string) : option Z :=
  match s with
  | EmptyString => Some acc
  | String c s' =>
      if is_digit c then int_digits (10 * acc + digit_value c) s' else None
  end.

(** The largest number of decimal digits that [int(s)] reads and that
    [str(n)] writes ([sys.int_info.default_max_str_digits]); the
    conversion of a text to [int] made when a model is constructed has
    the same limit. *)
Definition max_str_digits : nat := 4300.

(** [int(s)] for a text of decimal digits; [None] stands for the
    [ValueError] that a text of more than 4300 digits raises.  Other
    texts are not needed by the program (the texts it converts are
    captured by [[0-9]+] or [\d+]) and are reported as [None] too. *)
Definition int (s : string) : option Z :=
  match s with
  | EmptyString => None
  | _ => if (String.length s <=? max_str_digits)%nat then int_digits 0 s else None
  end.

(** The decimal text of an [int], whatever its length. *)
Definition str (n : Z) : string := NilZero.string_of_int (Z.to_int n).

(** [str(n)] returns, that is [n] has at most 4300 decimal digits; when
    it has more, [str(n)] raises [ValueError].  The program calls [str]
    on octets and group numbers, which are below 256, and when it
    formats the message of an address out of range, where
    [IPv4Address.__init__] tests [renders] first. *)
Definition renders (n : Z) : bool :=
  (String.length (str (Z.abs n)) <=? max_str_digits)%nat.

End Py.

(** ** The [re] module *)

Module Re.

Inductive regex : Type :=
| Cls (p : ascii -> bool)              (* one character of a class *)
| Rep (p : ascii -> bool) (min : nat)  (* greedy [p*] (min 0), [p+] (min 1) *)
| Cat (r1 r2 : regex)
| Alt (r1 r2 : regex)                  (* [r1|r2], [r1] tried first *)
| Opt (r : regex)                      (* greedy [r?] *)
| Grp (name : string) (r : regex)      (* capturing group *)
| Bol                                  (* [^] *)
| Eol.                                 (* [$] *)

(** The groups that took part in a match, latest capture first. *)
Definition groups : Type := list (string * string).

(** [m.group(name)]: [None] when the group did not take part. *)
Fixpoint group (g : groups) (name : string) : option string :=
  match g with
  | [] => None
  | (n, v) :: g' => if String.eqb n name then Some v else group g' name
  end.

Definition chr (c : ascii) : regex := Cls (Ascii.eqb c).

Fixpoint lit (s : string) : regex :=
  match s with
  | EmptyString => Opt (Cls (fun _ => false))
  | String c EmptyString => chr c
  | String c s' => Cat (chr c) (lit s')
  end.

Fixpoint cat (rs : list regex) : regex :=
  match rs with
  | [] => Opt (Cls (fun _ => false))
  | [r] => r
  | r :: rs' => Cat r (cat rs')
  end.

Section Matcher.

Variable A : Type.

(** Greedy repetition of a class: the longest run is tried first, then
    shorter ones down to [min] characters.  [cnt] is the number of
    characters taken so far, [pos] the position in the subject. *)
Fixpoint rep (p : ascii -> bool) (min cnt pos : nat) (s : string)
    (k : nat -> string -> option A) : option A :=
  let stop := if (min <=? cnt)%nat then k pos s else None in
  match s with
  | String c s' =>
      if p c then
        match rep p min (S cnt) (S pos) s' k with
        | Some x => Some x
        | None => stop
        end
      else stop
  | EmptyString => stop
  end.

(** The backtracking matcher, in continuation-passing style: [rmatch r
    pos s g k] matches [r] at position [pos], where [s] is the rest of
    the subject, and hands the position, the rest and the groups after
    the match to [k]; when [k] fails the next alternative is tried. *)
Fixpoint rmatch (r : regex) (pos : nat) (s : string) (g : groups)
    (k : nat -> string -> groups -> option A) : option A :=
  match r with
  | Cls p =>
      match s with
      | String c s' => if p c then k (S pos) s' g else None
      | EmptyString => None
      end
  | Rep p min => rep p min 0 pos s (fun pos' s' => k pos' s' g)
  | Cat r1 r2 =>
      rmatch r1 pos s g (fun pos' s' g' => rmatch r2 pos' s' g' k)
  | Alt r1 r2 =>
      match rmatch r1 pos s g k with
      | Some x => Some x
      | None => rmatch r2 pos s g k
      end
  | Opt r1 =>
      match rmatch r1 pos s g k with
      | Some x => Some x
      | None => k pos s g
      end
  | Grp name r1 =>
      rmatch r1 pos s g
        (fun pos' s' g' => k pos' s' ((name, substring 0 (pos' - pos) s) :: g'))
  | Bol => if (pos =? 0)%nat then k pos s g else None
  | Eol =>
      match s with
      | EmptyString => k pos s g
      | String c EmptyString => if Ascii.eqb c LF then k pos s g else None
      | _ => None
      end
  end.

End Matcher.

Arguments rep {A} p min cnt pos s k.
Arguments rmatch {A} r pos s g k.

(** A match of [r] starting exactly at [pos]: the end position and the
    groups. *)
Definition match_at (r : regex) (pos : nat) (s : string) : option (nat * groups) :=
  rmatch r pos s [] (fun pos' _ g => Some (pos', g)).

(** [re.search(r, s)]: the first position, from the left, at which [r]
    matches. *)
Fixpoint search_from (r : regex) (pos : nat) (s : string) : option groups :=
  match match_at r pos s with
  | Some (_, g) => Some g
  | None =>
      match s with
      | String _ s' => search_from r (S pos) s'
      | EmptyString => None
      end
  end.

Definition search (r : regex) (s : string) : option groups := search_from r 0 s.

(** [re.sub(r, repl, s)] for a pattern that cannot match the empty text:
    the matches are taken from left to right without overlap and each is
    replaced by [repl] applied to its groups. *)
Fixpoint sub_from (r : regex) (repl : groups -> string) (pos skip : nat)
    (s : string) : string :=
  match s with
  | EmptyString => EmptyString
  | String c s' =>
      match skip with
      | S n => sub_from r repl (S pos) n s'
      | O =>
          match match_at r pos s with
          | Some (pos', g) => repl g ++ sub_from r repl (S pos) (pos' - pos - 1) s'
          | None => String c (sub_from r repl (S pos) 0 s')
          end
      end
  end.

Definition sub (r : regex) (repl : groups -> string) (s : string) : string :=
  sub_from r repl 0 0 s.

End Re.

(** ** models.py *)

Definition quoted (s : string) : string :=
  String DQUOTE (s ++ String DQUOTE EmptyString).

(** [range(a, b)] and [enumerate] *)
Definition range (a b : Z) : list Z :=
  map (fun i => a + Z.of_nat i)%Z (seq 0 (Z.to_nat (b - a))).

Fixpoint enumerate_from {A : Type} (i : Z) (l : list A) : list (Z * A) :=
  match l with
  | [] => []
  | x :: l' => (i, x) :: enumerate_from (i + 1) l'
  end.

Definition enumerate {A : Type} (l : list A) : list (Z * A) := enumerate_from 0 l.

(** [int(v)] where [v] is what [m.group] or [m[i]] returned. *)
Definition int_of (v : option string) : result Z :=
  match v with
  | None => Err TypeError
  | Some s =>
      match Py.int s with
      | Some n => Ok n
      | None => Err ValueError
      end
  end.

Inductive AccessListAction : Type := DENY | PERMIT.

Inductive AccessListProtocol : Type := IP | UDP | TCP | ICMP.

(** Look-up of an enumeration member by its value, as done when a model
    is constructed from a text. *)
Definition AccessListAction_of_value (v : string) : option AccessListAction :=
  if String.eqb v "deny" then Some DENY
  else if String.eqb v "permit" then Some PERMIT
  else None.

Definition AccessListProtocol_of_value (v : string) : option AccessListProtocol :=
  if String.eqb v "ip" then Some IP
  else if String.eqb v "udp" then Some UDP
  else if String.eqb v "tcp" then Some TCP
  else if String.eqb v "icmp" then Some ICMP
  else None.

(** The argument of [IPv4Address.__init__]: [int | str | None]. *)
Inductive ip_arg : Type :=
| ArgInt (n : Z)
| ArgStr (s : string)
| ArgNone.

Definition arg_of_group (v : option string) : ip_arg :=
  match v with
  | Some s => ArgStr s
  | None => ArgNone
  end.

Module IPv4Address.

Record t : Type := mk { ip : Z }.

(** [^([0-9]+)\.([0-9]+)\.([0-9]+)\.([0-9]+)$] *)
Definition pattern : Re.regex :=
  Re.cat [Re.Bol;
          Re.Grp "1" (Re.Rep is_digit 1); Re.chr ".";
          Re.Grp "2" (Re.Rep is_digit 1); Re.chr ".";
          Re.Grp "3" (Re.Rep is_digit 1); Re.chr ".";
          Re.Grp "4" (Re.Rep is_digit 1); Re.Eol].

(** One turn of the loop of [_from_string]. *)
Definition add_octet (octets : Re.groups) (final_number : result Z)
    (io : Z * Z) : result Z :=
  let (index, octet) := io in
  let* final_number := final_number in
  let* octet_numeric := int_of (Re.group octets (Py.str octet)) in
  Ok (final_number + Z.shiftl octet_numeric ((3 - index) * 8))%Z.

Definition invalid (shown : string) : exn :=
  IPv4AddressException ("IPv4 address " ++ quoted shown ++ " is invalid").

Definition _from_string (ip : string) : result Z :=
  match Re.search pattern ip with
  | Some octets =>
      fold_left (add_octet octets) (enumerate (range 1 5)) (Ok 0%Z)
  | None => Err (invalid ip)
  end.

Definition octet_text (ip : Z) (octet : Z) : string :=
  let bitshift := ((3 - octet) * 8)%Z in
  let number := Z.shiftr (Z.land ip (Z.shiftl 255 bitshift)) bitshift in
  Py.str number.

Definition __str__ (self : t) : string :=
  Py.join "." (map (octet_text (ip self)) (range 0 4)).

Definition __init__ (ip : ip_arg) : result t :=
  let* ip :=
    match ip with
    | ArgStr s => _from_string s
    | ArgInt n => Ok n
    | ArgNone => Err TypeError
    end in
  if (ip <? 0)%Z || (ip >=? 2 ^ 32)%Z
  then (if Py.renders ip then Err (invalid (Py.str ip)) else Err ValueError)
  else Ok (mk ip).

End IPv4Address.

Record ACEIPv4Address : Type := {
  address : IPv4Address.t;
  wildcard_mask : IPv4Address.t
}.

Record IPv4Packet : Type := {
  packet_protocol : AccessListProtocol;
  packet_source_ipv4 : IPv4Address.t;
  packet_source_port : option Z;
  packet_destination_ipv4 : IPv4Address.t;
  packet_destination_port : option Z
}.

Module AccessListEntry.

(** The ports are declared [int | None]; the parser assigns the captured
    text to them after construction, and assignment to a field does not
    convert, so they hold that text. *)
Record t : Type := mk {
  index_number : Z;
  action : AccessListAction;
  protocol : AccessListProtocol;
  source_ipv4 : option ACEIPv4Address;
  source_port : option string;
  destination_ipv4 : option ACEIPv4Address;
  destination_port : option string
}.

(** [AccessListEntry(index_number=.., action=.., protocol=..)] with the
    three texts captured from the line: the index is converted to [int],
    the two others are looked up in their enumerations; the remaining
    fields take their default [None]. *)
Definition __init__ (index_number action protocol : option string) : result t :=
  match index_number, action, protocol with
  | Some n, Some a, Some p =>
      match Py.int n, AccessListAction_of_value a, AccessListProtocol_of_value p with
      | Some n', Some a', Some p' => Ok (mk n' a' p' None None None None)
      | _, _, _ => Err ValidationError
      end
  | _, _, _ => Err ValidationError
  end.

Definition set_source_ipv4 (v : option ACEIPv4Address) (e : t) : t :=
  mk (index_number e) (action e) (protocol e) v (source_port e)
     (destination_ipv4 e) (destination_port e).

Definition set_source_port (v : option string) (e : t) : t :=
  mk (index_number e) (action e) (protocol e) (source_ipv4 e) v
     (destination_ipv4 e) (destination_port e).

Definition set_destination_ipv4 (v : option ACEIPv4Address) (e : t) : t :=
  mk (index_number e) (action e) (protocol e) (source_ipv4 e) (source_port e)
     v (destination_port e).

Definition set_destination_port (v : option string) (e : t) : t :=
  mk (index_number e) (action e) (protocol e) (source_ipv4 e) (source_port e)
     (destination_ipv4 e) v.

(** [raise NotImplemented]: [NotImplemented] is not an exception, so the
    statement raises [TypeError], whatever the entry and the packet. *)
Definition is_hit (self : t) (packet : IPv4Packet) : result bool :=
  Err TypeError.

End AccessListEntry.

Record AccessList : Type := { aces : list AccessListEntry.t }.

(** ** acl_parser.py *)

Inductive level : Type := DEBUG | INFO | WARNING | ERROR.

(** A record handed to the logger: the level, the message and its
    arguments. *)
Record LogRecord : Type := {
  levelname : level;
  msg : string;
  args : list string
}.

Module CiscoIOSXEACLParser.

(** [^\s+(?P<number>\d+)\s+(?P<action>permit|deny)\s+(?P<protocol>\S+)\s+(?P<line>.+)$] *)
Definition ace_pattern : Re.regex :=
  Re.cat [Re.Bol; Re.Rep is_space 1;
          Re.Grp "number" (Re.Rep is_digit 1); Re.Rep is_space 1;
          Re.Grp "action" (Re.Alt (Re.lit "permit") (Re.lit "deny"));
          Re.Rep is_space 1;
          Re.Grp "protocol" (Re.Rep is_nonspace 1); Re.Rep is_space 1;
          Re.Grp "line" (Re.Rep is_dot 1); Re.Eol].

(** [host ([0-9.]+)] *)
Definition host_pattern : Re.regex :=
  Re.Cat (Re.lit "host ") (Re.Grp "1" (Re.Rep is_ipchar 1)).

(** The replacement template [\1 0.0.0.0]. *)
Definition host_repl (g : Re.groups) : string :=
  match Re.group g "1" with
  | Some ip => ip ++ " 0.0.0.0"
  | None => " 0.0.0.0"
  end.

(** The pattern of the addresses and ports, laid out with white space
    that is not part of it:
<<
    ^(?P<source> (?P<src_ip>[0-9.]+) \s+ (?P<src_wildcard>[0-9.]+) \s+
                 ( eq \s+ (?P<src_port>[0-9]+) \s* )? )
     (?P<destination> (?P<dst_ip>[0-9.]+) \s+ (?P<dst_wildcard>[0-9.]+) \s*
                 ( eq \s+ (?P<dst_port>[0-9]+) )? )$
>>
    The two groups without a name are called by their numbers, 4 and 9. *)
Definition ips_pattern : Re.regex :=
  Re.cat [Re.Bol;
          Re.Grp "source"
            (Re.cat [Re.Grp "src_ip" (Re.Rep is_ipchar 1); Re.Rep is_space 1;
                     Re.Grp "src_wildcard" (Re.Rep is_ipchar 1); Re.Rep is_space 1;
                     Re.Opt (Re.Grp "4"
                       (Re.cat [Re.lit "eq"; Re.Rep is_space 1;
                                Re.Grp "src_port" (Re.Rep is_digit 1);
                                Re.Rep is_space 0]))]);
          Re.Grp "destination"
            (Re.cat [Re.Grp "dst_ip" (Re.Rep is_ipchar 1); Re.Rep is_space 1;
                     Re.Grp "dst_wildcard" (Re.Rep is_ipchar 1); Re.Rep is_space 0;
                     Re.Opt (Re.Grp "9"
                       (Re.cat [Re.lit "eq"; Re.Rep is_space 1;
                                Re.Grp "dst_port" (Re.Rep is_digit 1)]))]);
          Re.Eol].

(** The two rewritings of the remainder of the line, [line.replace] and
    then [re.sub], in [parse_ace_config]. *)
Definition substitute_keywords (line : string) : string :=
  let line := Py.replace "any" "0.0.0.0 255.255.255.255" line in
  Re.sub host_pattern host_repl line.

Definition invalid_entry (ace_config : string) : exn :=
  ParserExceptionInvalidEntry
    ("ACE not a valid Cisco IOS XE Entry: " ++ quoted ace_config).

Definition parse_ace_config (ace_config : string) : result AccessListEntry.t :=
  match Re.search ace_pattern ace_config with
  | Some exploded_line =>
      let* ace_entry :=
        AccessListEntry.__init__ (Re.group exploded_line "number")
                                 (Re.group exploded_line "action")
                                 (Re.group exploded_line "protocol") in
      let* line :=
        match Re.group exploded_line "line" with
        | Some line => Ok line
        | None => Err AttributeError
        end in
      let line := substitute_keywords line in
      match Re.search ips_pattern line with
      | None => Err (invalid_entry ace_config)
      | Some ips =>
          let* src_address := IPv4Address.__init__ (arg_of_group (Re.group ips "src_ip")) in
          let* src_wildcard := IPv4Address.__init__ (arg_of_group (Re.group ips "src_wildcard")) in
          let ace_entry :=
            AccessListEntry.set_source_ipv4
              (Some {| address := src_address; wildcard_mask := src_wildcard |})
              ace_entry in
          let ace_entry :=
            AccessListEntry.set_source_port (Re.group ips "src_port") ace_entry in
          let* dst_address := IPv4Address.__init__ (arg_of_group (Re.group ips "dst_ip")) in
          let* dst_wildcard := IPv4Address.__init__ (arg_of_group (Re.group ips "dst_wildcard")) in
          let ace_entry :=
            AccessListEntry.set_destination_ipv4
              (Some {| address := dst_address; wildcard_mask := dst_wildcard |})
              ace_entry in
          let ace_entry :=
            AccessListEntry.set_destination_port (Re.group ips "dst_port") ace_entry in
          Ok ace_entry
      end
  | None => Err (invalid_entry ace_config)
  end.

(** [self._logger.warning('Skipping invalid line "%s"', ace_config)] *)
Definition skipping (ace_config : string) : LogRecord :=
  {| levelname := WARNING;
     msg := "Skipping invalid line " ++ quoted "%s";
     args := [ace_config] |}.

(** The loop of [parse_acl_config]: [aces] is the list built so far and
    [log] the records the logger received so far.  Only
    [ParserExceptionInvalidEntry] is caught; any other exception leaves
    the loop and the function. *)
Fixpoint parse_lines (lines : list string) (aces : list AccessListEntry.t)
    (log : list LogRecord) : result (list AccessListEntry.t) * list LogRecord :=
  match lines with
  | [] => (Ok aces, log)
  | ace_config :: rest =>
      match parse_ace_config ace_config with
      | Ok ace => parse_lines rest (aces ++ [ace]) log
      | Err (ParserExceptionInvalidEntry _) =>
          parse_lines rest aces (log ++ [skipping ace_config])
      | Err e => (Err e, log)
      end
  end.

Definition parse_acl_config (acl : string) (log : list LogRecord)
    : result AccessList * list LogRecord :=
  let (r, log') := parse_lines (Py.split LF acl) [] log in
  (let* aces := r in Ok {| aces := aces |}, log').

End CiscoIOSXEACLParser.

Import CiscoIOSXEACLParser.


(** * Vocabulary of the properties *)

Local Open Scope Z_scope.

(** ** Texts and runs of a character class *)

(** Every character of the text is in the class. *)
Fixpoint all_chars (p : ascii -> bool) (s : string) : bool :=
  match s with
  | EmptyString => true
  | String c s' => p c && all_chars p s'
  end.

(** The text is empty or starts with a character outside the class. *)
Definition stops (p : ascii -> bool) (s : string) : bool :=
  match s with
  | EmptyString => true
  | String c _ => negb (p c)
  end.

(** A non-empty text of decimal digits. *)
Definition digits (s : string) : bool :=
  negb (String.eqb s EmptyString) && all_chars is_digit s.

(** Four texts joined by dots. *)
Definition dotted (d1 d2 d3 d4 : string) : string :=
  (d1 ++ "." ++ d2 ++ "." ++ d3 ++ "." ++ d4)%string.

(** The text without its first [n] characters. *)
Fixpoint drop (n : nat) (s : string) : string :=
  match n, s with
  | S n', String _ s' => drop n' s'
  | _, _ => s
  end.

(** The longest prefix made of characters of the class, and what follows it. *)
Fixpoint take_run (p : ascii -> bool) (s : string) : string :=
  match s with
  | String c s' => if p c then String c (take_run p s') else EmptyString
  | EmptyString => EmptyString
  end.

Fixpoint drop_run (p : ascii -> bool) (s : string) : string :=
  match s with
  | String c s' => if p c then drop_run p s' else s
  | EmptyString => EmptyString
  end.

(** ** Octets *)

(** The octet of [n] at the shift [s]. *)
Definition octet (n s : Z) : Z := (n / 2 ^ s) mod 256.

(** [str] of an octet is a non-empty text of digits that [int] reads back. *)
Definition octet_text_ok (k : Z) : bool :=
  digits (Py.str k) &&
  match Py.int (Py.str k) with
  | Some k' => k' =? k
  | None => false
  end.

(** The value that four octets make, most significant first. *)
Definition composite (o1 o2 o3 o4 : Z) : Z :=
  o1 * 2 ^ 24 + o2 * 2 ^ 16 + o3 * 2 ^ 8 + o4.

(** ** The rewriting of the keywords *)

(** The text that replaces [any]. *)
Definition ANY : string := "0.0.0.0 255.255.255.255".

(** [re.sub] with the pattern and the template of the [host] keyword. *)
Definition sub_host : nat -> nat -> string -> string :=
  Re.sub_from host_pattern host_repl.

(** A match of [host ([0-9.]+)] at the start of [s]: its length and its
    group. *)
Definition host_at (s : string) : option (nat * string) :=
  if Py.startswith "host " s then
    match take_run is_ipchar (drop 5 s) with
    | EmptyString => None
    | run => Some (5 + String.length run, run)%nat
    end
  else None.

(** ** Lines of a block *)

(** The number of occurrences of a character in a text. *)
Fixpoint count_char (c : ascii) (s : string) : nat :=
  match s with
  | EmptyString => 0
  | String b s' => (if Ascii.eqb b c then 1 else 0) + count_char c s'
  end.

(** The entries of the lines that parse, in the order of the lines. *)
Definition parsed_aces (lines : list string) : list AccessListEntry.t :=
  flat_map (fun l => match parse_ace_config l with
                     | Ok ace => [ace]
                     | Err _ => []
                     end) lines.

(** The line makes the single-line parser raise [ParserExceptionInvalidEntry]. *)
Definition malformed (l : string) : bool :=
  match parse_ace_config l with
  | Err (ParserExceptionInvalidEntry _) => true
  | _ => false
  end.

(** The line parses, or makes the single-line parser raise
    [ParserExceptionInvalidEntry] and nothing else. *)
Definition parses_or_malformed (l : string) : Prop :=
  match parse_ace_config l with
  | Ok _ => True
  | Err (ParserExceptionInvalidEntry _) => True
  | Err _ => False
  end.

(** ** Inputs and values of the scenarios *)

Definition scenario_1 : string := "   10 permit tcp any host 10.0.0.5 eq 80".

Definition scenario_1_ace : AccessListEntry.t :=
  AccessListEntry.mk 10 PERMIT TCP
    (Some {| address := IPv4Address.mk 0;
             wildcard_mask := IPv4Address.mk 4294967295 |})
    None
    (Some {| address := IPv4Address.mk 167772165;
             wildcard_mask := IPv4Address.mk 0 |})
    (Some "80"%string).

Definition index_zero_ace : AccessListEntry.t :=
  AccessListEntry.mk 0 PERMIT IP
    (Some {| address := IPv4Address.mk 0;
             wildcard_mask := IPv4Address.mk 4294967295 |})
    None
    (Some {| address := IPv4Address.mk 0;
             wildcard_mask := IPv4Address.mk 4294967295 |})
    None.

Definition any_pair : ACEIPv4Address :=
  {| address := IPv4Address.mk 0; wildcard_mask := IPv4Address.mk 4294967295 |}.

Definition any_any_ace : AccessListEntry.t :=
  AccessListEntry.mk 30 DENY IP (Some any_pair) None (Some any_pair) None.

Definition packet_to (dst : Z) : IPv4Packet :=
  {| packet_protocol := TCP;
     packet_source_ipv4 := IPv4Address.mk 3232238081;
     packet_source_port := Some 5192;
     packet_destination_ipv4 := IPv4Address.mk dst;
     packet_destination_port := Some 80 |}.

Definition two_lines : string :=
  scenario_1 ++ String LF "permit everything".

Definition bad_address : string := "   10 permit tcp 1.1.1 0.0.0.0 any".

(** ** Ports *)

(** What a port field may hold after parsing: nothing, or a non-empty
    text of decimal digits. *)
Definition port_ok (v : option string) : Prop :=
  match v with
  | None => True
  | Some p => digits p = true
  end.

(** A value in the unsigned 32-bit range. *)
Definition in_range (a : IPv4Address.t) : Prop :=
  0 <= IPv4Address.ip a <= 2 ^ 32 - 1.

Definition not_a (c : ascii) : bool := negb (Ascii.eqb "a" c).

Definition not_h (c : ascii) : bool := negb (Ascii.eqb "h" c).

(** The character is neither [a] nor [h], the first letters of the two
    keywords. *)
Definition no_keyword_letter (c : ascii) : bool := not_a c && not_h c.

(** ** exceptions.py *)

Module Exceptions.

(** The exception classes of the package, and the classes from outside
    it that the program raises, with the built-in [Exception]. *)
Inductive cls : Type :=
| Exception
| ValueError
| TypeError
| AttributeError
| ValidationError
| NetDeviceParserException
| IPAddressException
| IPv4AddressException
| AccessListParserException
| ParserExceptionInvalidEntry.

(** The base class: for the classes of the package, the one named in the
    [class] statement; pydantic's [ValidationError] derives from
    [ValueError]; the base of [Exception] is not followed. *)
Definition base (c : cls) : option cls :=
  match c with
  | Exception => None
  | ValueError => Some Exception
  | TypeError => Some Exception
  | AttributeError => Some Exception
  | ValidationError => Some ValueError
  | NetDeviceParserException => Some Exception
  | IPAddressException => Some NetDeviceParserException
  | IPv4AddressException => Some IPAddressException
  | AccessListParserException => Some NetDeviceParserException
  | ParserExceptionInvalidEntry => Some AccessListParserException
  end.

Definition eqb (c d : cls) : bool :=
  match c, d with
  | Exception, Exception
  | ValueError, ValueError
  | TypeError, TypeError
  | AttributeError, AttributeError
  | ValidationError, ValidationError
  | NetDeviceParserException, NetDeviceParserException
  | IPAddressException, IPAddressException
  | IPv4AddressException, IPv4AddressException
  | AccessListParserException, AccessListParserException
  | ParserExceptionInvalidEntry, ParserExceptionInvalidEntry => true
  | _, _ => false
  end.

(** The class and its bases, nearest first; [n] bounds the number of
    bases followed. *)
Fixpoint bases (n : nat) (c : cls) : list cls :=
  c :: match n with
       | O => []
       | S n' =>
           match base c with
           | Some b => bases n' b
           | None => []
           end
       end.

(** [issubclass(c, d)] *)
Definition issubclass (c d : cls) : bool := existsb (eqb d) (bases 4 c).

End Exceptions.

(** The class of a raised exception. *)
Definition class_of (e : exn) : Exceptions.cls :=
  match e with
  | IPv4AddressException _ => Exceptions.IPv4AddressException
  | ParserExceptionInvalidEntry _ => Exceptions.ParserExceptionInvalidEntry
  | ValidationError => Exceptions.ValidationError
  | TypeError => Exceptions.TypeError
  | ValueError => Exceptions.ValueError
  | AttributeError => Exceptions.AttributeError
  end.

(** [isinstance(e, c)], which decides whether [except c] catches [e]. *)
Definition isinstance (e : exn) (c : Exceptions.cls) : bool :=
  Exceptions.issubclass (class_of e) c.

(** ** Lines of the expected form *)

(** The source port clause before the text [t], and the destination port
    clause. *)
Definition with_src_port (port : option string) (t : string) : string :=
  match port with
  | Some d => ("eq " ++ d ++ " " ++ t)%string
  | None => t
  end.

Definition dst_port_text (port : option string) : string :=
  match port with
  | Some d => (" eq " ++ d)%string
  | None => EmptyString
  end.

(** Addresses, wildcard masks and ports laid out as the pattern of the
    addresses expects them, with single spaces. *)
Definition address_text (ts tw : string) (sport : option string)
    (td tv : string) (dport : option string) : string :=
  (ts ++ " " ++ tw ++ " " ++
   with_src_port sport (td ++ " " ++ tv ++ dst_port_text dport))%string.

(** A line: indent, index, action, protocol and remainder, with single
    spaces between them. *)
Definition ace_line (sp num act proto rest : string) : string :=
  (sp ++ num ++ " " ++ act ++ " " ++ proto ++ " " ++ rest)%string.

(** ** What a match implies *)

(** [wp r Q pos s g]: the text [s] at position [pos] can be matched by
    [r] in such a way that [Q] holds of the position, the rest of the
    text and the groups after the match. *)
Fixpoint wp (r : Re.regex) (Q : nat -> string -> Re.groups -> Prop)
    (pos : nat) (s : string) (g : Re.groups) : Prop :=
  match r with
  | Re.Cls p =>
      exists c s', s = String c s' /\ p c = true /\ Q (S pos) s' g
  | Re.Rep p min =>
      exists ds s',
        s = (ds ++ s')%string /\ all_chars p ds = true /\
        (min <= String.length ds)%nat /\ Q (pos + String.length ds)%nat s' g
  | Re.Cat r1 r2 => wp r1 (wp r2 Q) pos s g
  | Re.Alt r1 r2 => wp r1 Q pos s g \/ wp r2 Q pos s g
  | Re.Opt r1 => wp r1 Q pos s g \/ Q pos s g
  | Re.Grp name r1 =>
      wp r1 (fun pos' s' g' => Q pos' s' ((name, substring 0 (pos' - pos) s) :: g'))
         pos s g
  | Re.Bol => pos = 0%nat /\ Q pos s g
  | Re.Eol => (s = EmptyString \/ s = String LF EmptyString) /\ Q pos s g
  end.

(** * Properties *)

(** ** Helper lemmas *)

Lemma bind_Ok {A B : Type} (a : A) (f : A -> result B) : bind (Ok a) f = f a.
Proof. reflexivity. Qed.

Lemma bind_Err {A B : Type} (e : exn) (f : A -> result B) : bind (Err e) f = Err e.
Proof. reflexivity. Qed.

Ltac inv_bind H :=
  match type of H with
  | bind ?m _ = Ok _ =>
      let E := fresh "E" in
      destruct m eqn:E;
      [ rewrite bind_Ok in H; cbv beta in H
      | rewrite bind_Err in H; discriminate H ]
  end.

Lemma int_digits_nonneg (s : string) :
  forall acc n, 0 <= acc -> Py.int_digits acc s = Some n -> 0 <= n.
Proof.
  induction s as [ | c s IH ]; simpl; intros acc n Hacc H.
  - injection H as <-. exact Hacc.
  - destruct (is_digit c); [ | discriminate H ].
    apply (IH (10 * acc + Py.digit_value c)); [ | exact H ].
    unfold Py.digit_value. lia.
Qed.

Lemma int_nonneg (s : string) (n : Z) : Py.int s = Some n -> 0 <= n.
Proof.
  unfold Py.int. destruct s; [ discriminate | ].
  destruct (_ <=? _)%nat; [ | discriminate ].
  apply int_digits_nonneg. lia.
Qed.

Lemma init_index_nonneg (n a p : option string) (e : AccessListEntry.t) :
  AccessListEntry.__init__ n a p = Ok e -> 0 <= AccessListEntry.index_number e.
Proof.
  unfold AccessListEntry.__init__.
  destruct n as [ n | ], a as [ a | ], p as [ p | ]; try discriminate.
  destruct (Py.int n) as [ n' | ] eqn:En; [ | discriminate ].
  destruct (AccessListAction_of_value a); [ | discriminate ].
  destruct (AccessListProtocol_of_value p); [ | discriminate ].
  intros H. injection H as <-. simpl. eapply int_nonneg, En.
Qed.

(** What [parse_ace_config] returns is the entry built from the header of
    the line with its four address and port fields assigned. *)
Lemma parse_ace_config_shape (ace_config : string) (ace : AccessListEntry.t) :
  parse_ace_config ace_config = Ok ace ->
  exists g e0 s sp d dp,
    AccessListEntry.__init__ (Re.group g "number") (Re.group g "action")
                             (Re.group g "protocol") = Ok e0 /\
    ace = AccessListEntry.mk (AccessListEntry.index_number e0)
            (AccessListEntry.action e0) (AccessListEntry.protocol e0)
            (Some s) sp (Some d) dp.
Proof.
  unfold parse_ace_config. intros H.
  destruct (Re.search ace_pattern ace_config) as [ g | ]; [ | discriminate H ].
  inv_bind H. inv_bind H.
  destruct (Re.search ips_pattern _) as [ ips | ]; [ | discriminate H ].
  do 4 inv_bind H.
  injection H as <-.
  do 6 eexists. split; [ eassumption | reflexivity ].
Qed.

(** ** IPv4Address *)

(** C8. Every address that [IPv4Address] constructs, from an integer or
    from a dotted-quad text, holds a value in [0, 2^32 - 1]. *)
Theorem ipv4address_value_in_range (arg : ip_arg) (a : IPv4Address.t) :
  IPv4Address.__init__ arg = Ok a ->
  0 <= IPv4Address.ip a <= 2 ^ 32 - 1.
Proof.
  unfold IPv4Address.__init__. intros H. inv_bind H.
  destruct (a0 <? 0) eqn:Elo;
    [ cbv beta iota delta [orb] in H; destruct (Py.renders a0); discriminate H | ].
  destruct (a0 >=? 2 ^ 32) eqn:Ehi;
    [ cbv beta iota delta [orb] in H; destruct (Py.renders a0); discriminate H | ].
  cbv beta iota delta [orb] in H. injection H as <-.
  cbv beta iota delta [IPv4Address.ip].
  apply Z.ltb_ge in Elo. rewrite Z.geb_leb in Ehi. apply Z.leb_gt in Ehi.
  lia.
Qed.

Lemma ipv4address_value_in_range_witness :
  IPv4Address.__init__ (ArgStr "192.168.10.5") = Ok (IPv4Address.mk 3232238085) /\
  0 <= 3232238085 <= 2 ^ 32 - 1.
Proof.
  split; [ reflexivity | ].
  apply (ipv4address_value_in_range (ArgStr "192.168.10.5") (IPv4Address.mk 3232238085)).
  reflexivity.
Defined.

(** A text that the pattern does not match is refused by [_from_string]. *)
Lemma ipv4address_unmatched_text (s : string) :
  Re.search IPv4Address.pattern s = None ->
  IPv4Address.__init__ (ArgStr s) = Err (IPv4Address.invalid s).
Proof.
  intros H. unfold IPv4Address.__init__, IPv4Address._from_string.
  now rewrite H.
Qed.

(** An integer outside [0, 2^32 - 1] is refused by [__init__]. *)
Lemma ipv4address_out_of_range (n : Z) :
  n < 0 \/ 2 ^ 32 <= n ->
  IPv4Address.__init__ (ArgInt n) =
    if Py.renders n then Err (IPv4Address.invalid (Py.str n)) else Err ValueError.
Proof.
  intros H. unfold IPv4Address.__init__. rewrite bind_Ok.
  assert (Hc : (n <? 0) || (n >=? 2 ^ 32) = true).
  { apply orb_true_iff. rewrite Z.geb_leb.
    destruct H as [ H | H ];
      [ left; apply Z.ltb_lt; exact H | right; apply Z.leb_le; exact H ]. }
  now rewrite Hc.
Qed.

Example ipv4address_300_1_1_1 :
  IPv4Address.__init__ (ArgStr "300.1.1.1") =
    Err (IPv4Address.invalid "5033230593").
Proof. reflexivity. Qed.

Example ipv4address_three_groups :
  IPv4Address.__init__ (ArgStr "1.1.1") = Err (IPv4Address.invalid "1.1.1").
Proof. reflexivity. Qed.

(** C3, at the text [0.0.0.256]: the last group is above 255, yet the
    address is constructed, with value 256, and is shown as [0.0.1.0]. *)
Theorem ipv4address_accepts_octet_256 :
  IPv4Address.__init__ (ArgStr "0.0.0.256") = Ok (IPv4Address.mk 256) /\
  IPv4Address.__str__ (IPv4Address.mk 256) = "0.0.1.0".
Proof. split; reflexivity. Qed.

(** ** The single-line parser *)

(** C5, at the line [   10 permit tcp any host 10.0.0.5 eq 80]: the
    entry has index 10, action permit, protocol tcp, source 0.0.0.0 with
    wildcard mask 255.255.255.255, no source port and destination
    10.0.0.5 with wildcard mask 0.0.0.0, but its destination port is the
    captured text [80], not the integer 80: the port is assigned after
    the entry is constructed, and the assignment does not convert. *)
Theorem parse_ace_config_scenario_1 :
  parse_ace_config scenario_1 = Ok scenario_1_ace /\
  AccessListEntry.index_number scenario_1_ace = 10 /\
  option_map IPv4Address.__str__
    (option_map address (AccessListEntry.source_ipv4 scenario_1_ace))
    = Some "0.0.0.0"%string /\
  option_map IPv4Address.__str__
    (option_map wildcard_mask (AccessListEntry.source_ipv4 scenario_1_ace))
    = Some "255.255.255.255"%string /\
  option_map IPv4Address.__str__
    (option_map address (AccessListEntry.destination_ipv4 scenario_1_ace))
    = Some "10.0.0.5"%string /\
  option_map IPv4Address.__str__
    (option_map wildcard_mask (AccessListEntry.destination_ipv4 scenario_1_ace))
    = Some "0.0.0.0"%string /\
  AccessListEntry.destination_port scenario_1_ace = Some "80"%string.
Proof. repeat split; reflexivity. Qed.

Example parse_ace_config_scenario_2 :
  parse_ace_config "   20 deny udp 192.168.1.0 0.0.0.255 192.168.2.0 0.0.0.255" =
    Ok (AccessListEntry.mk 20 DENY UDP
          (Some {| address := IPv4Address.mk 3232235776;
                   wildcard_mask := IPv4Address.mk 255 |})
          None
          (Some {| address := IPv4Address.mk 3232236032;
                   wildcard_mask := IPv4Address.mk 255 |})
          None).
Proof. reflexivity. Qed.

(** A header that does not match raises [ParserExceptionInvalidEntry]; a
    protocol outside the enumeration and a malformed address raise other
    exceptions. *)
Example parse_ace_config_no_indent :
  parse_ace_config "10 permit tcp any any" =
    Err (invalid_entry "10 permit tcp any any").
Proof. reflexivity. Qed.

Example parse_ace_config_unknown_protocol :
  parse_ace_config "   10 permit gre any any" = Err ValidationError.
Proof. reflexivity. Qed.

Example parse_ace_config_bad_address :
  parse_ace_config bad_address = Err (IPv4Address.invalid "1.1.1").
Proof. reflexivity. Qed.

(** C9, as stated, fails: the line [   0 permit ip any any] parses to an
    entry of index 0. *)
Lemma parse_ace_config_index_zero :
  parse_ace_config "   0 permit ip any any" = Ok index_zero_ace /\
  ~ 1 <= AccessListEntry.index_number index_zero_ace.
Proof.
  split; [ vm_compute; reflexivity | ].
  cbv [AccessListEntry.index_number index_zero_ace]. lia.
Qed.

(** C9, amended. Every entry produced by the single-line parser has a
    non-negative index number. *)
Theorem parse_ace_config_index_nonneg (line : string) (ace : AccessListEntry.t) :
  parse_ace_config line = Ok ace -> 0 <= AccessListEntry.index_number ace.
Proof.
  intros H. apply parse_ace_config_shape in H.
  destruct H as (g & e0 & s & sp & d & dp & He0 & ->). simpl.
  eapply init_index_nonneg, He0.
Qed.

Lemma parse_ace_config_index_nonneg_witness :
  parse_ace_config "   0 permit ip any any" = Ok index_zero_ace /\
  0 <= AccessListEntry.index_number index_zero_ace.
Proof.
  split; [ reflexivity | ].
  apply (parse_ace_config_index_nonneg "   0 permit ip any any" index_zero_ace).
  reflexivity.
Defined.

(** C10. Every entry returned by the single-line parser has a source and
    a destination address-with-wildcard pair, neither is [None]. *)
Theorem parse_ace_config_addresses_set (line : string) (ace : AccessListEntry.t) :
  parse_ace_config line = Ok ace ->
  exists src dst,
    AccessListEntry.source_ipv4 ace = Some src /\
    AccessListEntry.destination_ipv4 ace = Some dst.
Proof.
  intros H. apply parse_ace_config_shape in H.
  destruct H as (g & e0 & s & sp & d & dp & _ & ->). simpl.
  exists s, d. split; reflexivity.
Qed.

Lemma parse_ace_config_addresses_set_witness :
  parse_ace_config "   30 deny ip any any" = Ok any_any_ace /\
  exists src dst,
    AccessListEntry.source_ipv4 any_any_ace = Some src /\
    AccessListEntry.destination_ipv4 any_any_ace = Some dst.
Proof.
  split; [ reflexivity | ].
  apply (parse_ace_config_addresses_set "   30 deny ip any any" any_any_ace).
  reflexivity.
Defined.

(** ** The packet matcher *)

(** C2, on the entry of the line [   10 permit tcp any host 10.0.0.5 eq 80]:
    [is_hit] returns neither true for the packet to 10.0.0.5 port 80 nor
    false for the packet to 10.0.0.6 port 80; it raises for both. *)
Theorem is_hit_raises_on_scenario_1 :
  parse_ace_config scenario_1 = Ok scenario_1_ace /\
  AccessListEntry.is_hit scenario_1_ace (packet_to 167772165) = Err TypeError /\
  AccessListEntry.is_hit scenario_1_ace (packet_to 167772166) = Err TypeError.
Proof. repeat split; reflexivity. Qed.

(** ** The block parser *)

Lemma parse_lines_total (lines : list string) :
  forall aces log,
    Forall parses_or_malformed lines ->
    parse_lines lines aces log =
      (Ok (aces ++ parsed_aces lines),
       log ++ map skipping (filter malformed lines))%list.
Proof.
  induction lines as [ | l lines IH ]; intros aces log Hall; simpl.
  - now rewrite !app_nil_r.
  - inversion Hall as [ | ? ? Hl Hrest ]; subst.
    unfold parses_or_malformed, malformed in *.
    destruct (parse_ace_config l) as [ ace | e ].
    + rewrite IH by assumption. simpl. now rewrite <- app_assoc.
    + destruct e; try contradiction.
      rewrite IH by assumption. simpl. now rewrite <- app_assoc.
Qed.

Lemma parse_lines_failure (lines : list string) :
  forall aces log e log',
    parse_lines lines aces log = (Err e, log') ->
    (forall m, e <> ParserExceptionInvalidEntry m) /\
    exists l, In l lines /\ parse_ace_config l = Err e.
Proof.
  induction lines as [ | l lines IH ]; intros aces log e log' H; simpl in H.
  - discriminate H.
  - destruct (parse_ace_config l) as [ ace | e' ] eqn:El.
    + destruct (IH _ _ _ _ H) as (Hne & l' & Hin & Hl').
      split; [ exact Hne | ]. exists l'. split; [ now right | exact Hl' ].
    + destruct e';
        try (injection H as <- <-;
             split; [ intros m; discriminate | ];
             exists l; split; [ now left | exact El ]).
      destruct (IH _ _ _ _ H) as (Hne & l' & Hin & Hl').
      split; [ exact Hne | ]. exists l'. split; [ now right | exact Hl' ].
Qed.

(** When each line either parses or makes the single-line parser raise
    [ParserExceptionInvalidEntry], the block parser returns, each such
    line is skipped with one warning naming it, and the access list
    holds exactly the entries of the lines that parse, in line order;
    and whenever the block parser fails, the exception is not
    [ParserExceptionInvalidEntry] but another one raised by the
    single-line parser on some line. *)
Theorem parse_acl_config_skips_malformed (acl : string) (log : list LogRecord) :
  let lines := Py.split LF acl in
  (Forall parses_or_malformed lines ->
   parse_acl_config acl log =
     (Ok {| aces := parsed_aces lines |},
      log ++ map skipping (filter malformed lines))%list) /\
  (forall e log',
     parse_acl_config acl log = (Err e, log') ->
     (forall m, e <> ParserExceptionInvalidEntry m) /\
     exists l, In l lines /\ parse_ace_config l = Err e).
Proof.
  intros lines. unfold parse_acl_config. fold lines. split.
  - intros Hall. rewrite (parse_lines_total lines [] log Hall). reflexivity.
  - intros e log' H.
    destruct (parse_lines lines [] log) as [ r log1 ] eqn:E.
    destruct r as [ aces | e1 ]; [ discriminate H | ].
    rewrite bind_Err in H. injection H as -> ->.
    exact (parse_lines_failure lines _ _ _ _ E).
Qed.

(** C1, at the block made of the line [   10 permit tcp 1.1.1 0.0.0.0 any],
    alone and followed by the line [permit everything]: the first line
    is not a valid entry (its source address has three groups), yet it
    is not skipped; the block parser fails with the
    [IPv4AddressException] of the address, returns no access list and
    logs no warning, not even for the second line. *)
Theorem parse_acl_config_fails_on_bad_address :
  parse_ace_config bad_address = Err (IPv4Address.invalid "1.1.1") /\
  parse_acl_config bad_address [] = (Err (IPv4Address.invalid "1.1.1"), []) /\
  parse_acl_config (bad_address ++ String LF "permit everything") [] =
    (Err (IPv4Address.invalid "1.1.1"), []).
Proof. repeat split; vm_compute; reflexivity. Qed.

(** C6, as stated, fails: the empty text is split into one empty line,
    which is skipped with a warning, so a diagnostic is emitted. *)
Lemma empty_block_emits_warning :
  parse_acl_config EmptyString [] <> (Ok {| aces := [] |}, []).
Proof. discriminate. Qed.

(** C6, amended. Parsing the empty text returns an empty access list,
    does not fail, and emits exactly one warning, for the empty line. *)
Theorem parse_acl_config_empty (log : list LogRecord) :
  parse_acl_config EmptyString log =
    (Ok {| aces := [] |}, (log ++ [skipping EmptyString])%list).
Proof. reflexivity. Qed.

(** ** Runs of a character class *)

Lemma append_empty_r (s : string) : (s ++ EmptyString)%string = s.
Proof. induction s as [ | c s IH ]; simpl; [ | rewrite IH ]; reflexivity. Qed.

Lemma append_assoc (a b c : string) : ((a ++ b) ++ c)%string = (a ++ b ++ c)%string.
Proof. induction a as [ | x a IH ]; simpl; [ | rewrite IH ]; reflexivity. Qed.

Lemma length_append (a b : string) :
  String.length (a ++ b) = (String.length a + String.length b)%nat.
Proof. induction a as [ | x a IH ]; simpl; [ | rewrite IH ]; reflexivity. Qed.

Lemma substring_run (ds rest : string) :
  substring 0 (String.length ds) (ds ++ rest) = ds.
Proof.
  induction ds as [ | c ds IH ]; simpl.
  - destruct rest; reflexivity.
  - now rewrite IH.
Qed.

Lemma substring_whole (s : string) : substring 0 (String.length s) s = s.
Proof.
  rewrite <- (append_empty_r s) at 2. apply substring_run.
Qed.

Section Runs.

Context {A : Type}.
Variable p : ascii -> bool.
Variable min : nat.

(** On a run of the class that cannot be extended, the greedy repetition
    first offers the whole run to its continuation. *)
Lemma rep_run (ds rest : string) :
  forall (cnt pos : nat) (k : nat -> string -> option A) (x : A),
    all_chars p ds = true ->
    stops p rest = true ->
    (min <= cnt + String.length ds)%nat ->
    k (pos + String.length ds)%nat rest = Some x ->
    Re.rep p min cnt pos (ds ++ rest) k = Some x.
Proof.
  induction ds as [ | c ds IH ]; intros cnt pos k x Hall Hstop Hmin Hk.
  - simpl in *. rewrite Nat.add_0_r in Hmin, Hk.
    apply Nat.leb_le in Hmin.
    destruct rest as [ | c rest ]; simpl.
    + now rewrite Hmin.
    + simpl in Hstop. apply negb_true_iff in Hstop. now rewrite Hstop, Hmin.
  - simpl in Hall. apply andb_true_iff in Hall. destruct Hall as [ Hc Hall ].
    simpl. rewrite Hc.
    rewrite (IH (S cnt) (S pos) k x); try assumption; try reflexivity.
    + simpl in Hmin. lia.
    + simpl in Hk. now rewrite Nat.add_succ_r in Hk.
Qed.

Lemma rep_run_end (ds : string) :
  forall (cnt pos : nat) (k : nat -> string -> option A) (x : A),
    all_chars p ds = true ->
    (min <= cnt + String.length ds)%nat ->
    k (pos + String.length ds)%nat EmptyString = Some x ->
    Re.rep p min cnt pos ds k = Some x.
Proof.
  intros cnt pos k x Hall Hmin Hk.
  rewrite <- (append_empty_r ds) at 1.
  now apply rep_run.
Qed.

End Runs.

(** ** Dotted-quad texts *)

Lemma digits_all (s : string) : digits s = true -> all_chars is_digit s = true.
Proof. unfold digits. intros H. now apply andb_true_iff in H. Qed.

Lemma digits_length (s : string) : digits s = true -> (1 <= String.length s)%nat.
Proof.
  unfold digits. destruct s; simpl; [ discriminate | lia ].
Qed.

Lemma search_of_match_at (r : Re.regex) (s : string) (n : nat) (g : Re.groups) :
  Re.match_at r 0 s = Some (n, g) -> Re.search r s = Some g.
Proof.
  intros H. unfold Re.search. destruct s; simpl; rewrite H; reflexivity.
Qed.

(** The pattern of [_from_string] matches four groups of digits joined
    by dots, and captures the groups. *)
Lemma pattern_matches_dotted (d1 d2 d3 d4 : string) :
  digits d1 = true -> digits d2 = true -> digits d3 = true -> digits d4 = true ->
  Re.search IPv4Address.pattern (dotted d1 d2 d3 d4) =
    Some [("4", d4); ("3", d3); ("2", d2); ("1", d1)]%string.
Proof.
  intros H1 H2 H3 H4.
  pose proof (digits_all _ H1) as A1. pose proof (digits_all _ H2) as A2.
  pose proof (digits_all _ H3) as A3. pose proof (digits_all _ H4) as A4.
  pose proof (digits_length _ H1) as L1. pose proof (digits_length _ H2) as L2.
  pose proof (digits_length _ H3) as L3. pose proof (digits_length _ H4) as L4.
  unfold dotted.
  enough (exists n, Re.match_at IPv4Address.pattern 0
                      (d1 ++ "." ++ d2 ++ "." ++ d3 ++ "." ++ d4) =
                    Some (n, [("4", d4); ("3", d3); ("2", d2); ("1", d1)]%string))
    as [ n Hn ].
  { exact (search_of_match_at _ _ _ _ Hn). }
  eexists. unfold Re.match_at, IPv4Address.pattern.
  cbn [Re.cat Re.rmatch Re.chr Nat.eqb].
  apply rep_run; [ exact A1 | reflexivity | lia | ].
  rewrite Nat.add_0_l, Nat.sub_0_r, substring_run.
  cbn [append Ascii.eqb Bool.eqb]. cbv beta iota.
  apply rep_run; [ exact A2 | reflexivity | lia | ].
  rewrite Nat.add_comm, Nat.add_sub, substring_run.
  cbn [append Ascii.eqb Bool.eqb]. cbv beta iota.
  apply rep_run; [ exact A3 | reflexivity | lia | ].
  rewrite Nat.add_comm, Nat.add_sub, substring_run.
  cbn [append Ascii.eqb Bool.eqb]. cbv beta iota.
  apply rep_run_end; [ exact A4 | lia | ].
  rewrite Nat.add_comm, Nat.add_sub.
  rewrite substring_whole. reflexivity.
Qed.

Lemma octets_text_ok : forallb octet_text_ok (map Z.of_nat (seq 0 256)) = true.
Proof. vm_compute. reflexivity. Qed.

Lemma str_octet (k : Z) :
  0 <= k < 256 -> digits (Py.str k) = true /\ Py.int (Py.str k) = Some k.
Proof.
  intros Hk.
  assert (Hin : In k (map Z.of_nat (seq 0 256))).
  { rewrite <- (Z2Nat.id k) by lia. apply in_map, in_seq. lia. }
  pose proof (proj1 (forallb_forall _ _) octets_text_ok k Hin) as H.
  unfold octet_text_ok in H. apply andb_true_iff in H. destruct H as [ Hd Hi ].
  split; [ exact Hd | ].
  destruct (Py.int (Py.str k)) as [ k' | ]; [ | discriminate Hi ].
  apply Z.eqb_eq in Hi. now subst.
Qed.

(** The octet that [__str__] extracts at a shift. *)
Lemma octet_at (n s : Z) :
  0 <= s -> Z.shiftr (Z.land n (Z.shiftl 255 s)) s = (n / 2 ^ s) mod 256.
Proof.
  intros Hs.
  rewrite Z.shiftr_land, Z.shiftr_shiftl_l, Z.sub_diag by exact Hs.
  change (Z.shiftl 255 0) with (Z.ones 8).
  rewrite Z.land_ones by lia.
  rewrite Z.shiftr_div_pow2 by exact Hs.
  reflexivity.
Qed.

Lemma octet_bounds (n s : Z) : 0 <= octet n s < 256.
Proof. unfold octet. apply Z.mod_pos_bound. lia. Qed.

Lemma str_dotted (n : Z) :
  IPv4Address.__str__ (IPv4Address.mk n) =
    dotted (Py.str (octet n 24)) (Py.str (octet n 16))
           (Py.str (octet n 8)) (Py.str (octet n 0)).
Proof.
  unfold octet. rewrite <- !octet_at by lia. reflexivity.
Qed.

Lemma octets_sum (n : Z) :
  0 <= n <= 2 ^ 32 - 1 ->
  0 + Z.shiftl (octet n 24) 24 + Z.shiftl (octet n 16) 16
    + Z.shiftl (octet n 8) 8 + Z.shiftl (octet n 0) 0 = n.
Proof.
  intros Hn. unfold octet.
  rewrite !Z.shiftl_mul_pow2 by lia.
  change (2 ^ 32) with 4294967296 in Hn.
  change (2 ^ 24) with 16777216. change (2 ^ 16) with 65536.
  change (2 ^ 8) with 256. change (2 ^ 0) with 1.
  Z.div_mod_to_equations. lia.
Qed.

(** [_from_string] on four groups of digits joined by dots. *)
Lemma from_string_dotted (d1 d2 d3 d4 : string) (o1 o2 o3 o4 : Z) :
  digits d1 = true -> digits d2 = true -> digits d3 = true -> digits d4 = true ->
  Py.int d1 = Some o1 -> Py.int d2 = Some o2 ->
  Py.int d3 = Some o3 -> Py.int d4 = Some o4 ->
  IPv4Address._from_string (dotted d1 d2 d3 d4) =
    Ok (0 + Z.shiftl o1 24 + Z.shiftl o2 16 + Z.shiftl o3 8 + Z.shiftl o4 0).
Proof.
  intros H1 H2 H3 H4 I1 I2 I3 I4.
  unfold IPv4Address._from_string.
  rewrite pattern_matches_dotted by assumption.
  change (enumerate (range 1 5)) with [(0, 1); (1, 2); (2, 3); (3, 4)].
  unfold fold_left, IPv4Address.add_octet.
  change (Re.group _ (Py.str 1)) with (Some d1).
  change (Re.group _ (Py.str 2)) with (Some d2).
  change (Re.group _ (Py.str 3)) with (Some d3).
  change (Re.group _ (Py.str 4)) with (Some d4).
  unfold int_of. rewrite I1, I2, I3, I4.
  reflexivity.
Qed.

(** C4. For every [n] in [0, 2^32 - 1], the dotted-quad text of the
    address of value [n] is read back as the address of value [n]. *)
Theorem ipv4address_str_roundtrip (n : Z) :
  0 <= n <= 2 ^ 32 - 1 ->
  IPv4Address.__init__ (ArgInt n) = Ok (IPv4Address.mk n) /\
  IPv4Address.__init__ (ArgStr (IPv4Address.__str__ (IPv4Address.mk n)))
    = Ok (IPv4Address.mk n).
Proof.
  intros Hn.
  assert (Hin : (n <? 0) || (n >=? 2 ^ 32) = false).
  { apply orb_false_iff. split; [ apply Z.ltb_ge; lia | ].
    rewrite Z.geb_leb. apply Z.leb_gt. lia. }
  split.
  - unfold IPv4Address.__init__. rewrite bind_Ok. now rewrite Hin.
  - unfold IPv4Address.__init__. rewrite str_dotted.
    destruct (str_octet _ (octet_bounds n 24)) as [ D1 I1 ].
    destruct (str_octet _ (octet_bounds n 16)) as [ D2 I2 ].
    destruct (str_octet _ (octet_bounds n 8)) as [ D3 I3 ].
    destruct (str_octet _ (octet_bounds n 0)) as [ D4 I4 ].
    rewrite (from_string_dotted _ _ _ _ _ _ _ _ D1 D2 D3 D4 I1 I2 I3 I4).
    rewrite octets_sum by exact Hn.
    rewrite bind_Ok. now rewrite Hin.
Qed.

Lemma ipv4address_str_roundtrip_witness :
  0 <= 3232238085 <= 2 ^ 32 - 1 /\
  IPv4Address.__str__ (IPv4Address.mk 3232238085) = "192.168.10.5"%string /\
  IPv4Address.__init__ (ArgStr "192.168.10.5") = Ok (IPv4Address.mk 3232238085).
Proof.
  split; [ lia | ]. split; [ reflexivity | ].
  apply (proj2 (ipv4address_str_roundtrip 3232238085 ltac:(lia))).
Defined.

(** ** The rewriting of the keywords *)

Lemma take_drop_run (p : ascii -> bool) (s : string) :
  (take_run p s ++ drop_run p s)%string = s.
Proof.
  induction s as [ | c s IH ]; simpl; [ reflexivity | ].
  destruct (p c); simpl; [ now rewrite IH | reflexivity ].
Qed.

Lemma take_run_all (p : ascii -> bool) (s : string) :
  all_chars p (take_run p s) = true.
Proof.
  induction s as [ | c s IH ]; simpl; [ reflexivity | ].
  destruct (p c) eqn:E; simpl; [ now rewrite E | reflexivity ].
Qed.

Lemma drop_run_stops (p : ascii -> bool) (s : string) :
  stops p (drop_run p s) = true.
Proof.
  induction s as [ | c s IH ]; simpl; [ reflexivity | ].
  destruct (p c) eqn:E; simpl; [ exact IH | now rewrite E ].
Qed.

Lemma take_run_length (p : ascii -> bool) (s : string) :
  (String.length (take_run p s) <= String.length s)%nat.
Proof.
  induction s as [ | c s IH ]; simpl; [ lia | ].
  destruct (p c); simpl; lia.
Qed.

(** A run is not changed by what comes after a character outside the class. *)
Lemma take_run_app (p : ascii -> bool) (x r : string) :
  stops p r = true -> take_run p (x ++ r) = take_run p x.
Proof.
  intros Hr. induction x as [ | c x IH ]; simpl.
  - destruct r as [ | c r ]; simpl in *; [ reflexivity | ].
    apply negb_true_iff in Hr. now rewrite Hr.
  - destruct (p c); [ now rewrite IH | reflexivity ].
Qed.

Lemma take_run_whole (p : ascii -> bool) (x r : string) :
  all_chars p x = true -> stops p r = true -> take_run p (x ++ r) = x.
Proof.
  intros Hx Hr. rewrite take_run_app by exact Hr.
  induction x as [ | c x IH ]; simpl in *; [ reflexivity | ].
  apply andb_true_iff in Hx. destruct Hx as [ Hc Hx ].
  rewrite Hc. now rewrite IH.
Qed.

Section Literal.

Context {A : Type}.

(** A literal matches when the text starts with it. *)
Lemma rmatch_lit (l : string) :
  l <> EmptyString ->
  forall pos s g (k : nat -> string -> Re.groups -> option A),
    Re.rmatch (Re.lit l) pos s g k =
      if Py.startswith l s
      then k (pos + String.length l)%nat (drop (String.length l) s) g
      else None.
Proof.
  induction l as [ | c l IH ]; intros Hne pos s g k; [ congruence | ].
  destruct l as [ | c' l ].
  - simpl. destruct s as [ | b s ]; [ reflexivity | ].
    destruct (Ascii.eqb c b); simpl; [ | reflexivity ].
    rewrite Nat.add_1_r. now destruct s.
  - change (Re.lit (String c (String c' l)))
      with (Re.Cat (Re.chr c) (Re.lit (String c' l))).
    assert (Hl : String c' l <> EmptyString) by discriminate.
    specialize (IH Hl). clear Hl. revert IH.
    generalize (String c' l). intros l' IH.
    cbn [Re.rmatch Re.chr].
    destruct s as [ | b s ]; [ reflexivity | ].
    cbn [Py.startswith String.length drop].
    destruct (Ascii.eqb c b); cbn [andb]; [ | reflexivity ].
    rewrite IH. now rewrite Nat.add_succ_r.
Qed.

(** With fewer characters of the class than required, the repetition fails. *)
Lemma rep_short (p : ascii -> bool) (min : nat) (s : string) :
  forall cnt pos (k : nat -> string -> option A),
    (cnt + String.length (take_run p s) < min)%nat ->
    Re.rep p min cnt pos s k = None.
Proof.
  induction s as [ | c s IH ]; intros cnt pos k Hlt; simpl in *.
  - rewrite Nat.add_0_r in Hlt. apply Nat.leb_gt in Hlt. now rewrite Hlt.
  - destruct (p c); simpl in Hlt.
    + rewrite IH by lia.
      assert (Hc : (min <=? cnt)%nat = false) by (apply Nat.leb_gt; lia).
      now rewrite Hc.
    + rewrite Nat.add_0_r in Hlt. apply Nat.leb_gt in Hlt. now rewrite Hlt.
Qed.

End Literal.

(** [host_at] is what the matcher computes for [host ([0-9.]+)]. *)
Lemma match_at_host (pos : nat) (s : string) :
  Re.match_at host_pattern pos s =
    match host_at s with
    | Some (n, ip) => Some ((pos + n)%nat, [("1"%string, ip)])
    | None => None
    end.
Proof.
  unfold Re.match_at, host_pattern, host_at.
  cbn [Re.rmatch]. rewrite rmatch_lit by discriminate.
  destruct (Py.startswith "host " s); [ | reflexivity ].
  change (String.length "host ") with 5%nat.
  set (t := drop 5 s).
  cbn [Re.rmatch].
  destruct (take_run is_ipchar t) as [ | c run ] eqn:Erun.
  - apply rep_short. rewrite Erun. simpl. lia.
  - rewrite <- (take_drop_run is_ipchar t) at 1. rewrite Erun.
    apply rep_run.
    + rewrite <- Erun. apply take_run_all.
    + apply drop_run_stops.
    + simpl. lia.
    + f_equal. f_equal; [ lia | ].
      replace (pos + 5 + String.length (String c run) - (pos + 5))%nat
        with (String.length (String c run)) by lia.
      rewrite <- (take_drop_run is_ipchar t), Erun.
      now rewrite substring_run.
Qed.

Lemma host_at_length (s : string) (n : nat) (ip : string) :
  host_at s = Some (n, ip) -> (1 <= n <= String.length s)%nat.
Proof.
  unfold host_at.
  destruct s as [ | c1 [ | c2 [ | c3 [ | c4 [ | c5 t ] ] ] ] ];
    cbn [Py.startswith];
    repeat match goal with
           | |- context [ (?a =? ?b)%char ] => destruct (a =? b)%char; cbn [andb]
           end; try discriminate.
  cbn [drop].
  pose proof (take_run_length is_ipchar t) as Hlen.
  destruct (take_run is_ipchar t) as [ | c run ]; [ discriminate | ].
  intros H. injection H as <- <-. simpl in *. lia.
Qed.

(** A match of the pattern inside a text is not changed by a following
    text that starts with the letter [h]. *)
Lemma host_at_local (a t : string) :
  a <> EmptyString -> host_at (a ++ String "h" t) = host_at a.
Proof.
  intros Ha. unfold host_at.
  destruct a as [ | c1 [ | c2 [ | c3 [ | c4 [ | c5 a ] ] ] ] ];
    [ congruence | .. ];
    cbn [append Py.startswith];
    repeat match goal with
           | |- context [ (?x =? ?y)%char ] =>
               lazymatch x with
               | y => fail
               | _ => destruct (x =? y)%char eqn:?; cbn [andb]
               end
           end;
    try reflexivity; try discriminate.
  cbn [drop]. rewrite take_run_app by reflexivity. reflexivity.
Qed.

(** The position in the subject plays no part in the substitution. *)
Lemma sub_host_position (s : string) :
  forall pos skip, sub_host pos skip s = sub_host 0%nat skip s.
Proof.
  unfold sub_host.
  induction s as [ | c s IH ]; intros pos skip; [ reflexivity | ].
  cbn [Re.sub_from]. destruct skip as [ | skip ].
  - rewrite !match_at_host.
    destruct (host_at (String c s)) as [ [ n ip ] | ].
    + rewrite (IH (S pos)), (IH 1%nat).
      replace (pos + n - pos - 1)%nat with (0 + n - 0 - 1)%nat by lia.
      reflexivity.
    + now rewrite (IH (S pos)), (IH 1%nat).
  - now rewrite (IH (S pos)), (IH 1%nat).
Qed.

(** Dropping the rest of a match. *)
Lemma sub_host_skip (x b : string) :
  forall pos, sub_host pos (String.length x) (x ++ b) = sub_host 0%nat 0%nat b.
Proof.
  unfold sub_host.
  induction x as [ | c x IH ]; intros pos.
  - cbn [append String.length]. apply sub_host_position.
  - cbn [append String.length Re.sub_from]. apply IH.
Qed.

(** The substitution in a text followed by the letter [h] is the
    substitution in the text followed by the substitution in the rest. *)
Lemma sub_host_app (a t : string) :
  forall pos skip,
    (skip <= String.length a)%nat ->
    sub_host pos skip (a ++ String "h" t) =
      (sub_host pos skip a ++ sub_host 0%nat 0%nat (String "h" t))%string.
Proof.
  unfold sub_host.
  set (tail := Re.sub_from host_pattern host_repl 0 0 (String "h" t)).
  induction a as [ | c a IH ]; intros pos skip Hskip.
  - simpl in Hskip. replace skip with 0%nat by lia.
    cbn [append]. apply sub_host_position.
  - change (String c a ++ String "h" t)%string
      with (String c (a ++ String "h" t)).
    cbn [Re.sub_from]. destruct skip as [ | skip ].
    + rewrite !match_at_host.
      change (String c (a ++ String "h" t))
        with (String c a ++ String "h" t)%string.
      rewrite host_at_local by discriminate.
      destruct (host_at (String c a)) as [ [ n ip ] | ] eqn:Eh.
      * apply host_at_length in Eh. simpl in Eh.
        rewrite IH by lia.
        now rewrite append_assoc.
      * rewrite IH by lia. reflexivity.
    + simpl in Hskip. rewrite IH by lia. reflexivity.
Qed.

Lemma sub_host_match (ip b : string) :
  all_chars is_ipchar ip = true -> ip <> EmptyString -> stops is_ipchar b = true ->
  sub_host 0%nat 0%nat ("host " ++ ip ++ b) =
    (ip ++ " 0.0.0.0" ++ sub_host 0%nat 0%nat b)%string.
Proof.
  intros Hip Hne Hb. unfold sub_host.
  change ("host " ++ ip ++ b)%string with (String "h" ("ost " ++ ip ++ b)).
  cbn [Re.sub_from]. rewrite match_at_host.
  assert (Hh : host_at (String "h" ("ost " ++ ip ++ b)) =
               Some ((5 + String.length ip)%nat, ip)).
  { unfold host_at. cbn [Py.startswith append drop Ascii.eqb Bool.eqb andb].
    rewrite take_run_whole by assumption.
    destruct ip; [ congruence | reflexivity ]. }
  rewrite Hh.
  change (host_repl [("1"%string, ip)]) with (ip ++ " 0.0.0.0")%string.
  replace (0 + (5 + String.length ip) - 0 - 1)%nat
    with (String.length ("ost " ++ ip)) by (rewrite length_append; simpl; lia).
  rewrite <- (append_assoc "ost " ip b).
  fold sub_host. rewrite sub_host_skip.
  now rewrite append_assoc.
Qed.

Lemma replace_any_step (c : ascii) (a : string) :
  Py.replace_from "any" ANY 0 (String c a) =
    if Py.startswith "any" (String c a)
    then (ANY ++ Py.replace_from "any" ANY 2 a)%string
    else String c (Py.replace_from "any" ANY 0 a).
Proof. reflexivity. Qed.

(** An occurrence of [any] does not reach into one that follows it. *)
Lemma startswith_any_app (c : ascii) (a b : string) :
  Py.startswith "any" (String c a ++ "any" ++ b) = Py.startswith "any" (String c a).
Proof.
  destruct a as [ | c2 [ | c3 a ] ]; cbn [append Py.startswith].
  - destruct (Ascii.eqb "a" c); reflexivity.
  - destruct (Ascii.eqb "a" c); [ | reflexivity ].
    destruct (Ascii.eqb "n" c2); reflexivity.
  - reflexivity.
Qed.

Lemma startswith_any_length (c : ascii) (a : string) :
  Py.startswith "any" (String c a) = true -> (2 <= String.length a)%nat.
Proof.
  destruct a as [ | c2 [ | c3 a ] ]; cbn [Py.startswith String.length].
  - destruct (Ascii.eqb "a" c); discriminate.
  - destruct (Ascii.eqb "a" c); [ | discriminate ].
    destruct (Ascii.eqb "n" c2); discriminate.
  - intros _. lia.
Qed.

Lemma replace_any_app (a b : string) :
  forall skip,
    (skip <= String.length a)%nat ->
    Py.replace_from "any" ANY skip (a ++ "any" ++ b) =
      (Py.replace_from "any" ANY skip a ++ ANY ++ Py.replace "any" ANY b)%string.
Proof.
  induction a as [ | c a IH ]; intros skip Hskip.
  - simpl in Hskip. replace skip with 0%nat by lia. reflexivity.
  - destruct skip as [ | skip ].
    + change (String c a ++ "any" ++ b)%string with (String c (a ++ "any" ++ b)).
      rewrite (replace_any_step c (a ++ "any" ++ b)), (replace_any_step c a).
      change (String c (a ++ "any" ++ b)) with (String c a ++ "any" ++ b)%string.
      rewrite startswith_any_app.
      destruct (Py.startswith "any" (String c a)) eqn:E.
      * apply startswith_any_length in E.
        rewrite IH by exact E. now rewrite append_assoc.
      * rewrite IH by lia. reflexivity.
    + simpl in Hskip.
      change (Py.replace_from "any" ANY (S skip) (String c a ++ "any" ++ b))
        with (Py.replace_from "any" ANY skip (a ++ "any" ++ b)).
      change (Py.replace_from "any" ANY (S skip) (String c a))
        with (Py.replace_from "any" ANY skip a).
      apply IH. lia.
Qed.

(** [any] inside [many] and [host] at the end of [ghost] are rewritten
    too, so a remainder without the bare words is changed. *)
Lemma substitute_keywords_inside_words :
  substitute_keywords "many ghost 1.1.1.1" = "m0.0.0.0 255.255.255.255 g1.1.1.1 0.0.0.0"%string /\
  substitute_keywords "many ghost 1.1.1.1" <> "many ghost 1.1.1.1"%string.
Proof. split; [ reflexivity | discriminate ]. Qed.

(** C7, at the line [   10 permit ip 1any host 1.1.1.1]: the remainder
    [1any host 1.1.1.1] holds no bare word [any], yet the [any] inside
    [1any] is rewritten, the remainder becomes
    [10.0.0.0 255.255.255.255 1.1.1.1 0.0.0.0], and the line, which is
    not a valid entry, parses with source 10.0.0.0 and wildcard mask
    255.255.255.255. *)
Theorem parse_ace_config_any_inside_word :
  substitute_keywords "1any host 1.1.1.1" =
    "10.0.0.0 255.255.255.255 1.1.1.1 0.0.0.0"%string /\
  parse_ace_config "   10 permit ip 1any host 1.1.1.1" =
    Ok (AccessListEntry.mk 10 PERMIT IP
          (Some {| address := IPv4Address.mk 167772160;
                   wildcard_mask := IPv4Address.mk 4294967295 |})
          None
          (Some {| address := IPv4Address.mk 16843009;
                   wildcard_mask := IPv4Address.mk 0 |})
          None).
Proof. split; reflexivity. Qed.

(** The two passes of the rewriting: first every occurrence of the text
    [any] becomes [0.0.0.0 255.255.255.255], then every occurrence of
    [host ] followed by a longest non-empty run of digits and dots
    becomes that run followed by [ 0.0.0.0]; what precedes or follows an
    occurrence is rewritten on its own. *)
Theorem substitute_keywords_rewrites :
  (forall a b,
     Py.replace "any" ANY (a ++ "any" ++ b) =
       (Py.replace "any" ANY a ++ ANY ++ Py.replace "any" ANY b)%string) /\
  (forall a ip b,
     all_chars is_ipchar ip = true -> ip <> EmptyString ->
     stops is_ipchar b = true ->
     Re.sub host_pattern host_repl (a ++ "host " ++ ip ++ b) =
       (Re.sub host_pattern host_repl a ++ ip ++ " 0.0.0.0"
          ++ Re.sub host_pattern host_repl b)%string).
Proof.
  split.
  - intros a b. unfold Py.replace. apply replace_any_app. lia.
  - intros a ip b Hip Hne Hb. unfold Re.sub.
    change ("host " ++ ip ++ b)%string with (String "h" ("ost " ++ ip ++ b)).
    rewrite sub_host_app by lia.
    change (String "h" ("ost " ++ ip ++ b)) with ("host " ++ ip ++ b)%string.
    now rewrite sub_host_match.
Qed.

Lemma substitute_keywords_rewrites_witness :
  all_chars is_ipchar "10.0.0.5" = true /\
  "10.0.0.5"%string <> EmptyString /\
  stops is_ipchar " eq 80" = true /\
  Re.sub host_pattern host_repl ("ghost 1.1.1.1 " ++ "host " ++ "10.0.0.5" ++ " eq 80")
    = "g1.1.1.1 0.0.0.0 10.0.0.5 0.0.0.0 eq 80"%string.
Proof.
  split; [ reflexivity | ]. split; [ discriminate | ]. split; [ reflexivity | ].
  apply (proj2 substitute_keywords_rewrites "ghost 1.1.1.1 " "10.0.0.5" " eq 80");
    [ reflexivity | discriminate | reflexivity ].
Defined.

(** * Further properties *)

(** ** Soundness of the matcher *)

Section Soundness.

Context {A : Type}.

Lemma rep_sound (p : ascii -> bool) (min : nat) (s : string) :
  forall cnt pos (k : nat -> string -> option A) x,
    Re.rep p min cnt pos s k = Some x ->
    exists ds s',
      s = (ds ++ s')%string /\ all_chars p ds = true /\
      (min <= cnt + String.length ds)%nat /\
      k (pos + String.length ds)%nat s' = Some x.
Proof.
  assert (Hstop : forall t cnt pos (k : nat -> string -> option A) x,
             (if (min <=? cnt)%nat then k pos t else None) = Some x ->
             exists ds s',
               t = (ds ++ s')%string /\ all_chars p ds = true /\
               (min <= cnt + String.length ds)%nat /\
               k (pos + String.length ds)%nat s' = Some x).
  { intros t cnt pos k x H.
    destruct (min <=? cnt)%nat eqn:E; [ | discriminate H ].
    apply Nat.leb_le in E.
    exists EmptyString, t. simpl. rewrite !Nat.add_0_r. auto. }
  induction s as [ | c s IH ]; intros cnt pos k x H; simpl in H.
  - now apply Hstop.
  - destruct (p c) eqn:Ec; [ | now apply Hstop ].
    destruct (Re.rep p min (S cnt) (S pos) s k) as [ y | ] eqn:Er.
    + injection H as ->.
      destruct (IH _ _ _ _ Er) as (ds & s' & -> & Hall & Hmin & Hk).
      exists (String c ds), s'. simpl. rewrite Ec, Hall.
      repeat split; try reflexivity; try lia.
      rewrite Nat.add_succ_r. exact Hk.
    + now apply Hstop.
Qed.

End Soundness.

Lemma wp_mono (r : Re.regex) :
  forall (Q Q' : nat -> string -> Re.groups -> Prop),
    (forall pos s g, Q pos s g -> Q' pos s g) ->
    forall pos s g, wp r Q pos s g -> wp r Q' pos s g.
Proof.
  induction r as [ p | p min | r1 IH1 r2 IH2 | r1 IH1 r2 IH2 | r1 IH1
                 | name r1 IH1 | | ]; intros Q Q' HQ pos s g H; simpl in *.
  - destruct H as (c & s' & -> & Hc & H). eauto 6.
  - destruct H as (ds & s' & -> & Hall & Hmin & H). eauto 8.
  - revert H. apply IH1. intros pos' s' g'. now apply IH2.
  - destruct H as [ H | H ]; [ left | right ]; revert H; eauto.
  - destruct H as [ H | H ]; [ left; revert H; eauto | right; auto ].
  - revert H. apply IH1. intros pos' s' g'. apply HQ.
  - destruct H; auto.
  - destruct H; auto.
Qed.

(** Whatever the matcher returns comes from its continuation, called
    after a match of the pattern. *)
Lemma rmatch_sound {A : Type} (r : Re.regex) :
  forall pos s g (k : nat -> string -> Re.groups -> option A) x,
    Re.rmatch r pos s g k = Some x ->
    wp r (fun pos' s' g' => k pos' s' g' = Some x) pos s g.
Proof.
  induction r as [ p | p min | r1 IH1 r2 IH2 | r1 IH1 r2 IH2 | r1 IH1
                 | name r1 IH1 | | ]; intros pos s g k x H; simpl in *.
  - destruct s as [ | c s ]; [ discriminate H | ].
    destruct (p c) eqn:Ec; [ | discriminate H ]. eauto 6.
  - apply rep_sound in H.
    destruct H as (ds & s' & -> & Hall & Hmin & Hk). eauto 8.
  - apply IH1 in H. revert H. apply wp_mono.
    intros pos' s' g'. apply IH2.
  - destruct (Re.rmatch r1 pos s g k) as [ y | ] eqn:E.
    + injection H as ->. left. now apply IH1.
    + right. now apply IH2.
  - destruct (Re.rmatch r1 pos s g k) as [ y | ] eqn:E.
    + injection H as ->. left. now apply IH1.
    + now right.
  - now apply IH1 in H.
  - destruct (pos =? 0)%nat eqn:E; [ | discriminate H ].
    apply Nat.eqb_eq in E. auto.
  - destruct s as [ | c [ | c' s ] ]; try discriminate H.
    + auto.
    + destruct (Ascii.eqb c LF) eqn:E; [ | discriminate H ].
      apply Ascii.eqb_eq in E. subst c. auto.
Qed.

(** A pattern that starts with [^] is only matched at the start. *)
Lemma search_from_bol (r : Re.regex) (s : string) :
  forall pos, Re.search_from (Re.Cat Re.Bol r) (S pos) s = None.
Proof.
  induction s as [ | c s IH ]; intros pos; simpl; [ reflexivity | apply IH ].
Qed.

Lemma search_bol_sound (r : Re.regex) (s : string) (g : Re.groups) :
  Re.search (Re.Cat Re.Bol r) s = Some g ->
  wp r (fun _ _ g' => g' = g) 0%nat s [].
Proof.
  unfold Re.search. intros H.
  assert (Hm : exists n, Re.match_at (Re.Cat Re.Bol r) 0 s = Some (n, g)).
  { destruct s as [ | c s ]; simpl in H.
    - destruct (Re.match_at (Re.Cat Re.Bol r) 0 EmptyString) as [ [ n g' ] | ];
        [ injection H as ->; eauto | discriminate H ].
    - destruct (Re.match_at (Re.Cat Re.Bol r) 0 (String c s)) as [ [ n g' ] | ].
      + injection H as ->. eauto.
      + now rewrite search_from_bol in H. }
  destruct Hm as [ n Hm ]. unfold Re.match_at in Hm.
  apply rmatch_sound in Hm. simpl in Hm. destruct Hm as [ _ Hm ].
  revert Hm. apply wp_mono. intros pos' s' g' E. now injection E.
Qed.

(** A literal matches the text it spells. *)
Lemma wp_lit (l : string) :
  l <> EmptyString ->
  forall Q pos s g,
    wp (Re.lit l) Q pos s g ->
    exists s', s = (l ++ s')%string /\ Q (pos + String.length l)%nat s' g.
Proof.
  induction l as [ | c l IH ]; intros Hne Q pos s g H; [ congruence | ].
  destruct l as [ | c' l ].
  - simpl in H. destruct H as (b & s' & -> & Hb & H).
    apply Ascii.eqb_eq in Hb. subst b.
    exists s'. simpl. rewrite Nat.add_1_r. auto.
  - change (Re.lit (String c (String c' l)))
      with (Re.Cat (Re.chr c) (Re.lit (String c' l))) in H.
    simpl in H. destruct H as (b & s' & -> & Hb & H).
    apply Ascii.eqb_eq in Hb. subst b.
    apply IH in H; [ | discriminate ].
    destruct H as (s'' & -> & H).
    exists s''. split; [ reflexivity | ].
    simpl in *. now rewrite Nat.add_succ_r.
Qed.

Lemma substring_take (ds rest : string) (a b : nat) :
  (b - a)%nat = String.length ds -> substring 0 (b - a) (ds ++ rest) = ds.
Proof. intros ->. apply substring_run. Qed.

Lemma digits_of_run (ds : string) :
  all_chars is_digit ds = true -> (1 <= String.length ds)%nat -> digits ds = true.
Proof.
  intros Hall Hlen. unfold digits. rewrite Hall.
  destruct ds; [ simpl in Hlen; lia | reflexivity ].
Qed.

Ltac split_wp :=
  repeat match goal with
         | H : exists _, _ |- _ => destruct H
         | H : _ /\ _ |- _ => destruct H
         | H : (_ =? _)%char = true |- _ => apply Ascii.eqb_eq in H
         end.

(** ** Dotted-quad texts, continued *)

Lemma pattern_sound (s : string) (g : Re.groups) :
  Re.search IPv4Address.pattern s = Some g ->
  exists d1 d2 d3 d4,
    digits d1 = true /\ digits d2 = true /\ digits d3 = true /\ digits d4 = true /\
    (s = dotted d1 d2 d3 d4 \/ s = (dotted d1 d2 d3 d4 ++ String LF EmptyString)%string) /\
    g = [("4", d4); ("3", d3); ("2", d2); ("1", d1)]%string.
Proof.
  intros H. unfold IPv4Address.pattern in H. cbn [Re.cat] in H.
  apply search_bol_sound in H. unfold Re.chr in H. cbn [wp] in H.
  split_wp.
  subst. rewrite !substring_take by lia.
  exists x, x3, x7, x11.
  repeat split; try (apply digits_of_run; assumption).
  unfold dotted.
  match goal with H : _ \/ _ |- _ => destruct H as [ -> | -> ] end.
  - left. now rewrite append_empty_r.
  - right. repeat (rewrite append_assoc; simpl). reflexivity.
Qed.

Lemma int_digits_some (s : string) :
  all_chars is_digit s = true -> forall acc, exists o, Py.int_digits acc s = Some o.
Proof.
  induction s as [ | c s IH ]; intros Hall acc; simpl.
  - eauto.
  - simpl in Hall. apply andb_true_iff in Hall. destruct Hall as [ Hc Hall ].
    rewrite Hc. apply IH. exact Hall.
Qed.

(** [int] reads a text of digits unless it has more than 4300 of them. *)
Lemma digits_int (d : string) :
  digits d = true ->
  if (String.length d <=? Py.max_str_digits)%nat
  then exists o, Py.int d = Some o
  else Py.int d = None.
Proof.
  intros H. pose proof (digits_all _ H) as Hall.
  unfold Py.int. destruct d as [ | c d ]; [ discriminate H | ].
  destruct (String.length (String c d) <=? Py.max_str_digits)%nat;
    [ now apply int_digits_some | reflexivity ].
Qed.

(** The pattern of [_from_string] also matches when one line feed follows
    the four groups. *)
Lemma pattern_matches_dotted_lf (d1 d2 d3 d4 : string) :
  digits d1 = true -> digits d2 = true -> digits d3 = true -> digits d4 = true ->
  Re.search IPv4Address.pattern (dotted d1 d2 d3 d4 ++ String LF EmptyString) =
    Some [("4", d4); ("3", d3); ("2", d2); ("1", d1)]%string.
Proof.
  intros H1 H2 H3 H4.
  pose proof (digits_all _ H1) as A1. pose proof (digits_all _ H2) as A2.
  pose proof (digits_all _ H3) as A3. pose proof (digits_all _ H4) as A4.
  pose proof (digits_length _ H1) as L1. pose proof (digits_length _ H2) as L2.
  pose proof (digits_length _ H3) as L3. pose proof (digits_length _ H4) as L4.
  unfold dotted. repeat (rewrite append_assoc; simpl).
  enough (exists n, Re.match_at IPv4Address.pattern 0
                      (d1 ++ String "." (d2 ++ String "." (d3 ++ String "."
                         (d4 ++ String LF EmptyString)))) =
                    Some (n, [("4", d4); ("3", d3); ("2", d2); ("1", d1)]%string))
    as [ n Hn ].
  { exact (search_of_match_at _ _ _ _ Hn). }
  eexists. unfold Re.match_at, IPv4Address.pattern.
  cbn [Re.cat Re.rmatch Re.chr Nat.eqb].
  apply rep_run; [ exact A1 | reflexivity | lia | ].
  rewrite substring_take by lia.
  cbn [Ascii.eqb Bool.eqb]. cbv beta iota.
  apply rep_run; [ exact A2 | reflexivity | lia | ].
  rewrite substring_take by lia.
  cbn [Ascii.eqb Bool.eqb]. cbv beta iota.
  apply rep_run; [ exact A3 | reflexivity | lia | ].
  rewrite substring_take by lia.
  cbn [Ascii.eqb Bool.eqb]. cbv beta iota.
  apply rep_run; [ exact A4 | reflexivity | lia | ].
  rewrite substring_take by lia.
  reflexivity.
Qed.

Lemma int_is_digits (d : string) (o : Z) : Py.int d = Some o -> digits d = true.
Proof.
  unfold Py.int, digits. destruct d as [ | c d ]; [ discriminate | ].
  destruct (_ <=? _)%nat; [ | discriminate ].
  change (negb (String c d =? EmptyString)%string) with true.
  generalize 0. generalize (String c d). clear.
  intros s. induction s as [ | c s IH ]; intros acc H; simpl in *.
  - reflexivity.
  - destruct (is_digit c); [ | discriminate H ]. simpl. eapply IH, H.
Qed.

Lemma int_length (d : string) (o : Z) :
  Py.int d = Some o -> (String.length d <= Py.max_str_digits)%nat.
Proof.
  unfold Py.int. destruct d as [ | c d ]; [ discriminate | ].
  destruct (String.length (String c d) <=? Py.max_str_digits)%nat eqn:E;
    [ intros _; now apply Nat.leb_le | discriminate ].
Qed.

Lemma shifts_composite (o1 o2 o3 o4 : Z) :
  0 + Z.shiftl o1 24 + Z.shiftl o2 16 + Z.shiftl o3 8 + Z.shiftl o4 0
    = composite o1 o2 o3 o4.
Proof.
  unfold composite. rewrite !Z.shiftl_mul_pow2 by lia. lia.
Qed.

(** [_from_string] on a text in which the pattern found four groups. *)
Lemma from_string_groups (s d1 d2 d3 d4 : string) (o1 o2 o3 o4 : Z) :
  Re.search IPv4Address.pattern s =
    Some [("4", d4); ("3", d3); ("2", d2); ("1", d1)]%string ->
  Py.int d1 = Some o1 -> Py.int d2 = Some o2 ->
  Py.int d3 = Some o3 -> Py.int d4 = Some o4 ->
  IPv4Address._from_string s = Ok (composite o1 o2 o3 o4).
Proof.
  intros Hs I1 I2 I3 I4.
  unfold IPv4Address._from_string. rewrite Hs.
  change (enumerate (range 1 5)) with [(0, 1); (1, 2); (2, 3); (3, 4)].
  unfold fold_left, IPv4Address.add_octet.
  change (Re.group _ (Py.str 1)) with (Some d1).
  change (Re.group _ (Py.str 2)) with (Some d2).
  change (Re.group _ (Py.str 3)) with (Some d3).
  change (Re.group _ (Py.str 4)) with (Some d4).
  unfold int_of. rewrite I1, I2, I3, I4.
  rewrite !bind_Ok. now rewrite shifts_composite.
Qed.

Lemma int_none_long (d : string) :
  digits d = true -> Py.int d = None -> (Py.max_str_digits < String.length d)%nat.
Proof.
  intros Hd Hi. pose proof (digits_int d Hd) as H.
  destruct (String.length d <=? Py.max_str_digits)%nat eqn:E.
  - destruct H as [ o Ho ]. congruence.
  - now apply Nat.leb_gt in E.
Qed.

(** What [_from_string] does on any text: the loop stops with the
    [ValueError] of [int] at the first group that is too long. *)
Lemma from_string_cases (s : string) :
  (Re.search IPv4Address.pattern s = None /\
   IPv4Address._from_string s = Err (IPv4Address.invalid s)) \/
  (exists d1 d2 d3 d4,
     (s = dotted d1 d2 d3 d4 \/
      s = (dotted d1 d2 d3 d4 ++ String LF EmptyString)%string) /\
     digits d1 = true /\ digits d2 = true /\ digits d3 = true /\ digits d4 = true /\
     match Py.int d1, Py.int d2, Py.int d3, Py.int d4 with
     | Some o1, Some o2, Some o3, Some o4 =>
         IPv4Address._from_string s = Ok (composite o1 o2 o3 o4)
     | _, _, _, _ => IPv4Address._from_string s = Err ValueError
     end).
Proof.
  destruct (Re.search IPv4Address.pattern s) as [ g | ] eqn:Es.
  - right. destruct (pattern_sound _ _ Es)
      as (d1 & d2 & d3 & d4 & D1 & D2 & D3 & D4 & Hs & ->).
    exists d1, d2, d3, d4. repeat split; try assumption.
    destruct (Py.int d1) as [ o1 | ] eqn:I1; destruct (Py.int d2) as [ o2 | ] eqn:I2;
      destruct (Py.int d3) as [ o3 | ] eqn:I3; destruct (Py.int d4) as [ o4 | ] eqn:I4;
      try (now apply (from_string_groups s d1 d2 d3 d4));
      unfold IPv4Address._from_string; rewrite Es;
      change (enumerate (range 1 5)) with [(0, 1); (1, 2); (2, 3); (3, 4)];
      unfold fold_left, IPv4Address.add_octet;
      change (Re.group _ (Py.str 1)) with (Some d1);
      change (Re.group _ (Py.str 2)) with (Some d2);
      change (Re.group _ (Py.str 3)) with (Some d3);
      change (Re.group _ (Py.str 4)) with (Some d4);
      unfold int_of; rewrite I1, I2, I3, I4; reflexivity.
  - left. split; [ reflexivity | ].
    unfold IPv4Address._from_string. now rewrite Es.
Qed.

Lemma composite_nonneg (o1 o2 o3 o4 : Z) :
  0 <= o1 -> 0 <= o2 -> 0 <= o3 -> 0 <= o4 -> 0 <= composite o1 o2 o3 o4.
Proof. unfold composite. lia. Qed.

Lemma init_of_int (n : Z) :
  IPv4Address.__init__ (ArgInt n) =
    if (n <? 0) || (n >=? 2 ^ 32)
    then (if Py.renders n then Err (IPv4Address.invalid (Py.str n)) else Err ValueError)
    else Ok (IPv4Address.mk n).
Proof. reflexivity. Qed.

Lemma init_of_str (s : string) :
  IPv4Address.__init__ (ArgStr s) =
    let* n := IPv4Address._from_string s in IPv4Address.__init__ (ArgInt n).
Proof.
  unfold IPv4Address.__init__.
  destruct (IPv4Address._from_string s); reflexivity.
Qed.

Lemma range_test (n : Z) :
  (n <? 0) || (n >=? 2 ^ 32) = false <-> 0 <= n <= 2 ^ 32 - 1.
Proof.
  rewrite orb_false_iff, Z.ltb_ge, Z.geb_leb, Z.leb_gt. lia.
Qed.

(** X1. A text is accepted by the constructor exactly when it is four
    non-empty groups of decimal digits that [int] reads (at most 4300
    digits each) joined by dots, possibly followed by one line feed,
    whose composite value is below 2^32; the address then holds that
    composite value. *)
Theorem ipv4address_accepted_texts (s : string) (a : IPv4Address.t) :
  IPv4Address.__init__ (ArgStr s) = Ok a <->
  exists d1 d2 d3 d4 o1 o2 o3 o4,
    (s = dotted d1 d2 d3 d4 \/
     s = (dotted d1 d2 d3 d4 ++ String LF EmptyString)%string) /\
    Py.int d1 = Some o1 /\ Py.int d2 = Some o2 /\
    Py.int d3 = Some o3 /\ Py.int d4 = Some o4 /\
    composite o1 o2 o3 o4 < 2 ^ 32 /\
    a = IPv4Address.mk (composite o1 o2 o3 o4).
Proof.
  rewrite init_of_str. split.
  - intros H.
    destruct (from_string_cases s) as
      [ [ _ E ] | (d1 & d2 & d3 & d4 & Hs & _ & _ & _ & _ & E) ];
      [ rewrite E in H; discriminate H | ].
    destruct (Py.int d1) as [ o1 | ] eqn:I1; destruct (Py.int d2) as [ o2 | ] eqn:I2;
      destruct (Py.int d3) as [ o3 | ] eqn:I3; destruct (Py.int d4) as [ o4 | ] eqn:I4;
      rewrite E in H; try discriminate H.
    rewrite bind_Ok, init_of_int in H.
    destruct ((composite o1 o2 o3 o4 <? 0) || (composite o1 o2 o3 o4 >=? 2 ^ 32))
      eqn:Er; [ destruct (Py.renders _); discriminate H | ].
    apply range_test in Er. injection H as <-.
    exists d1, d2, d3, d4, o1, o2, o3, o4. repeat split; try assumption. lia.
  - intros (d1 & d2 & d3 & d4 & o1 & o2 & o3 & o4 & Hs & I1 & I2 & I3 & I4 & Hlt & ->).
    pose proof (int_is_digits _ _ I1) as D1. pose proof (int_is_digits _ _ I2) as D2.
    pose proof (int_is_digits _ _ I3) as D3. pose proof (int_is_digits _ _ I4) as D4.
    assert (E : IPv4Address._from_string s = Ok (composite o1 o2 o3 o4)).
    { destruct Hs as [ -> | -> ].
      - apply (from_string_groups _ d1 d2 d3 d4); try assumption.
        now apply pattern_matches_dotted.
      - apply (from_string_groups _ d1 d2 d3 d4); try assumption.
        now apply pattern_matches_dotted_lf. }
    rewrite E, bind_Ok, init_of_int.
    assert (Er : (composite o1 o2 o3 o4 <? 0) || (composite o1 o2 o3 o4 >=? 2 ^ 32) = false).
    { apply range_test.
      pose proof (composite_nonneg o1 o2 o3 o4
                    (int_nonneg _ _ I1) (int_nonneg _ _ I2)
                    (int_nonneg _ _ I3) (int_nonneg _ _ I4)).
      lia. }
    now rewrite Er.
Qed.

Lemma ipv4address_accepted_texts_witness :
  IPv4Address.__init__ (ArgStr ("010.0.0.005" ++ String LF EmptyString))
    = Ok (IPv4Address.mk 167772165).
Proof.
  apply (proj2 (ipv4address_accepted_texts _ _)).
  exists "010"%string, "0"%string, "0"%string, "005"%string, 10, 0, 0, 5.
  repeat split; try reflexivity. now right.
Defined.

(** X2. A text is refused by the constructor with
    [IPv4AddressException] or [ValueError] and nothing else: with
    [IPv4AddressException] naming the text when the pattern does not
    match; with the [ValueError] of [int] when the pattern matches and a
    group has more than 4300 digits; and, when the composite value is
    2^32 or more, with [IPv4AddressException] naming that value, or with
    the [ValueError] of [str] when the value has more than 4300 digits. *)
Theorem ipv4address_refused_texts (s : string) (e : exn) :
  IPv4Address.__init__ (ArgStr s) = Err e ->
  (Re.search IPv4Address.pattern s = None /\ e = IPv4Address.invalid s) \/
  (exists d1 d2 d3 d4,
     (s = dotted d1 d2 d3 d4 \/
      s = (dotted d1 d2 d3 d4 ++ String LF EmptyString)%string) /\
     ((Py.max_str_digits < String.length d1)%nat \/
      (Py.max_str_digits < String.length d2)%nat \/
      (Py.max_str_digits < String.length d3)%nat \/
      (Py.max_str_digits < String.length d4)%nat) /\
     e = ValueError) \/
  (exists n, 2 ^ 32 <= n /\ IPv4Address._from_string s = Ok n /\
             e = if Py.renders n then IPv4Address.invalid (Py.str n) else ValueError).
Proof.
  rewrite init_of_str. intros H.
  destruct (from_string_cases s) as
    [ [ Es E ] | (d1 & d2 & d3 & d4 & Hs & D1 & D2 & D3 & D4 & E) ].
  - left. rewrite E, bind_Err in H. injection H as <-. now split.
  - right.
    destruct (Py.int d1) as [ o1 | ] eqn:I1; destruct (Py.int d2) as [ o2 | ] eqn:I2;
      destruct (Py.int d3) as [ o3 | ] eqn:I3; destruct (Py.int d4) as [ o4 | ] eqn:I4;
      rewrite E in H;
      try (left; rewrite bind_Err in H; injection H as <-;
           exists d1, d2, d3, d4; split; [ exact Hs | ]; split; [ | reflexivity ];
           auto using int_none_long).
    right. rewrite bind_Ok, init_of_int in H.
    destruct ((composite o1 o2 o3 o4 <? 0) || (composite o1 o2 o3 o4 >=? 2 ^ 32))
      eqn:Er; [ | discriminate H ].
    exists (composite o1 o2 o3 o4). split; [ | split; [ exact E | ] ].
    + pose proof (composite_nonneg o1 o2 o3 o4
                    (int_nonneg _ _ I1) (int_nonneg _ _ I2)
                    (int_nonneg _ _ I3) (int_nonneg _ _ I4)) as Hnn.
      apply orb_true_iff in Er. destruct Er as [ Er | Er ].
      * apply Z.ltb_lt in Er. lia.
      * rewrite Z.geb_leb in Er. now apply Z.leb_le in Er.
    + destruct (Py.renders (composite o1 o2 o3 o4)); injection H as <-; reflexivity.
Qed.

Lemma ipv4address_refused_texts_witness :
  (Re.search IPv4Address.pattern "300.1.1.1" = None /\
   IPv4Address.invalid "5033230593" = IPv4Address.invalid "300.1.1.1") \/
  (exists d1 d2 d3 d4,
     ("300.1.1.1"%string = dotted d1 d2 d3 d4 \/
      "300.1.1.1"%string = (dotted d1 d2 d3 d4 ++ String LF EmptyString)%string) /\
     ((Py.max_str_digits < String.length d1)%nat \/
      (Py.max_str_digits < String.length d2)%nat \/
      (Py.max_str_digits < String.length d3)%nat \/
      (Py.max_str_digits < String.length d4)%nat) /\
     IPv4Address.invalid "5033230593" = ValueError) \/
  (exists n, 2 ^ 32 <= n /\ IPv4Address._from_string "300.1.1.1" = Ok n /\
             IPv4Address.invalid "5033230593" =
               if Py.renders n then IPv4Address.invalid (Py.str n) else ValueError).
Proof.
  apply (ipv4address_refused_texts "300.1.1.1" (IPv4Address.invalid "5033230593")).
  reflexivity.
Defined.

Lemma octets_of_composite (o1 o2 o3 o4 : Z) :
  0 <= o1 <= 255 -> 0 <= o2 <= 255 -> 0 <= o3 <= 255 -> 0 <= o4 <= 255 ->
  octet (composite o1 o2 o3 o4) 24 = o1 /\
  octet (composite o1 o2 o3 o4) 16 = o2 /\
  octet (composite o1 o2 o3 o4) 8 = o3 /\
  octet (composite o1 o2 o3 o4) 0 = o4.
Proof.
  intros H1 H2 H3 H4. unfold octet, composite.
  change (2 ^ 24) with 16777216. change (2 ^ 16) with 65536.
  change (2 ^ 8) with 256. change (2 ^ 0) with 1.
  repeat split; Z.div_mod_to_equations; lia.
Qed.

Lemma from_string_str (n : Z) :
  0 <= n <= 2 ^ 32 - 1 ->
  IPv4Address._from_string (IPv4Address.__str__ (IPv4Address.mk n)) = Ok n.
Proof.
  intros Hn. rewrite str_dotted.
  destruct (str_octet _ (octet_bounds n 24)) as [ D1 I1 ].
  destruct (str_octet _ (octet_bounds n 16)) as [ D2 I2 ].
  destruct (str_octet _ (octet_bounds n 8)) as [ D3 I3 ].
  destruct (str_octet _ (octet_bounds n 0)) as [ D4 I4 ].
  rewrite (from_string_dotted _ _ _ _ _ _ _ _ D1 D2 D3 D4 I1 I2 I3 I4).
  now rewrite octets_sum.
Qed.

(** X3. Four groups of digits whose values are at most 255 are accepted,
    and the address is shown as those values in decimal without leading
    zeros, joined by dots. *)
Theorem ipv4address_str_canonical (d1 d2 d3 d4 : string) (o1 o2 o3 o4 : Z) :
  Py.int d1 = Some o1 -> Py.int d2 = Some o2 ->
  Py.int d3 = Some o3 -> Py.int d4 = Some o4 ->
  o1 <= 255 -> o2 <= 255 -> o3 <= 255 -> o4 <= 255 ->
  exists a,
    IPv4Address.__init__ (ArgStr (dotted d1 d2 d3 d4)) = Ok a /\
    IPv4Address.__str__ a = dotted (Py.str o1) (Py.str o2) (Py.str o3) (Py.str o4).
Proof.
  intros I1 I2 I3 I4 B1 B2 B3 B4.
  pose proof (int_nonneg _ _ I1) as N1. pose proof (int_nonneg _ _ I2) as N2.
  pose proof (int_nonneg _ _ I3) as N3. pose proof (int_nonneg _ _ I4) as N4.
  exists (IPv4Address.mk (composite o1 o2 o3 o4)). split.
  - rewrite init_of_str.
    rewrite (from_string_groups _ d1 d2 d3 d4 o1 o2 o3 o4); try assumption.
    + rewrite bind_Ok, init_of_int.
      assert (Er : (composite o1 o2 o3 o4 <? 0) || (composite o1 o2 o3 o4 >=? 2 ^ 32) = false).
      { apply range_test. unfold composite. lia. }
      now rewrite Er.
    + apply pattern_matches_dotted; eapply int_is_digits; eassumption.
  - rewrite str_dotted.
    destruct (octets_of_composite o1 o2 o3 o4) as (-> & -> & -> & ->);
      try lia.
    reflexivity.
Qed.

Lemma ipv4address_str_canonical_witness :
  exists a,
    IPv4Address.__init__ (ArgStr (dotted "010" "001" "00" "255")) = Ok a /\
    IPv4Address.__str__ a = "10.1.0.255"%string.
Proof.
  apply (ipv4address_str_canonical "010" "001" "00" "255" 10 1 0 255);
    try reflexivity; lia.
Defined.

(** X4. Two different addresses in range are shown as different texts. *)
Theorem ipv4address_str_injective (n m : Z) :
  0 <= n <= 2 ^ 32 - 1 -> 0 <= m <= 2 ^ 32 - 1 ->
  n <> m ->
  IPv4Address.__str__ (IPv4Address.mk n) <> IPv4Address.__str__ (IPv4Address.mk m).
Proof.
  intros Hn Hm Hne E. apply Hne.
  pose proof (from_string_str n Hn) as En.
  rewrite E, (from_string_str m Hm) in En.
  now injection En.
Qed.

Lemma ipv4address_str_injective_witness :
  IPv4Address.__str__ (IPv4Address.mk 167772165)
    <> IPv4Address.__str__ (IPv4Address.mk 167772421).
Proof.
  apply (ipv4address_str_injective 167772165 167772421); lia.
Defined.

(** ** The block parser, continued *)

Lemma split_cons (sep : ascii) (s : string) :
  exists h t, Py.split sep s = h :: t.
Proof.
  destruct s as [ | c s ]; simpl; [ eauto | ].
  destruct (Ascii.eqb c sep); [ eauto | ].
  destruct (Py.split sep s); eauto.
Qed.

Lemma split_app (sep : ascii) (a b : string) :
  Py.split sep (a ++ String sep b) = (Py.split sep a ++ Py.split sep b)%list.
Proof.
  induction a as [ | c a IH ]; simpl.
  - now rewrite Ascii.eqb_refl.
  - destruct (Ascii.eqb c sep); [ now rewrite IH | ].
    rewrite IH. destruct (split_cons sep a) as (h & t & ->). reflexivity.
Qed.

Lemma split_length (sep : ascii) (s : string) :
  length (Py.split sep s) = S (count_char sep s).
Proof.
  induction s as [ | c s IH ]; simpl; [ reflexivity | ].
  destruct (Ascii.eqb c sep); simpl; [ now rewrite IH | ].
  destruct (split_cons sep s) as (h & t & E). rewrite E in *. exact IH.
Qed.

(** The list built so far and the records logged so far are carried
    along unchanged. *)
Lemma parse_lines_acc (lines : list string) :
  forall aces log,
    parse_lines lines aces log =
      (let* r := fst (parse_lines lines [] []) in Ok (aces ++ r)%list,
       (log ++ snd (parse_lines lines [] []))%list).
Proof.
  induction lines as [ | l lines IH ]; intros aces log; simpl.
  - now rewrite !app_nil_r.
  - destruct (parse_ace_config l) as [ ace | e ].
    + rewrite (IH (aces ++ [ace])%list log), (IH [ace] []).
      destruct (fst (parse_lines lines [] [])) as [ r | e ]; simpl;
        [ now rewrite <- app_assoc | reflexivity ].
    + destruct e; simpl; try now rewrite app_nil_r.
      rewrite (IH aces (log ++ [skipping l])%list), (IH [] [skipping l]).
      simpl. rewrite <- app_assoc.
      destruct (fst (parse_lines lines [] [])); reflexivity.
Qed.

Lemma parse_lines_app (l1 l2 : list string) :
  forall aces log,
    parse_lines (l1 ++ l2) aces log =
      match parse_lines l1 aces log with
      | (Ok aces', log') => parse_lines l2 aces' log'
      | (Err e, log') => (Err e, log')
      end.
Proof.
  induction l1 as [ | l l1 IH ]; intros aces log; simpl; [ reflexivity | ].
  destruct (parse_ace_config l) as [ ace | e ]; [ apply IH | ].
  destruct e; try reflexivity. apply IH.
Qed.

Lemma parse_acl_config_lines (acl : string) (log : list LogRecord) :
  parse_acl_config acl log =
    (let* aces := fst (parse_lines (Py.split LF acl) [] log) in Ok {| aces := aces |},
     snd (parse_lines (Py.split LF acl) [] log)).
Proof.
  unfold parse_acl_config. now destruct (parse_lines (Py.split LF acl) [] log).
Qed.

Lemma parse_acl_config_ok (acl : string) (log log' : list LogRecord) (al : AccessList) :
  parse_acl_config acl log = (Ok al, log') ->
  parse_lines (Py.split LF acl) [] log = (Ok (aces al), log').
Proof.
  rewrite parse_acl_config_lines.
  destruct (parse_lines (Py.split LF acl) [] log) as [ [ r | e ] l ]; simpl;
    intros H; [ | discriminate H ].
  injection H as <- <-. reflexivity.
Qed.

(** When the loop returns, every line parsed or was malformed. *)
Lemma parse_lines_ok_lines (lines : list string) :
  forall aces log r log',
    parse_lines lines aces log = (Ok r, log') ->
    Forall parses_or_malformed lines.
Proof.
  induction lines as [ | l lines IH ]; intros aces log r log' H; simpl in H.
  - constructor.
  - unfold parses_or_malformed at 1.
    destruct (parse_ace_config l) as [ ace | e ] eqn:El.
    + constructor; [ now rewrite El | eapply IH, H ].
    + destruct e; try discriminate H.
      constructor; [ now rewrite El | eapply IH, H ].
Qed.

Lemma parsed_plus_malformed (lines : list string) :
  Forall parses_or_malformed lines ->
  (length (parsed_aces lines) + length (filter malformed lines) = length lines)%nat.
Proof.
  induction 1 as [ | l lines Hl _ IH ]; simpl; [ reflexivity | ].
  unfold parses_or_malformed, malformed in *.
  destruct (parse_ace_config l) as [ ace | e ]; simpl; [ lia | ].
  destruct e; try contradiction. simpl. lia.
Qed.

(** X6. When the block parser returns, every line of the text is
    accounted for: the number of entries plus the number of warnings
    added is the number of line feeds in the text plus one, and each
    warning names a line of the text. *)
Theorem parse_acl_config_accounts (acl : string) (log log' : list LogRecord)
    (al : AccessList) :
  parse_acl_config acl log = (Ok al, log') ->
  exists w,
    log' = (log ++ w)%list /\
    (length (aces al) + length w = S (count_char LF acl))%nat /\
    Forall (fun r => exists l, In l (Py.split LF acl) /\ r = skipping l) w.
Proof.
  intros H. apply parse_acl_config_ok in H.
  pose proof (parse_lines_ok_lines _ _ _ _ _ H) as Hall.
  rewrite (parse_lines_total _ [] log Hall) in H.
  injection H as Ha Hl.
  exists (map skipping (filter malformed (Py.split LF acl))).
  split; [ now rewrite Hl | ]. split.
  - rewrite <- Ha, length_map, <- split_length. simpl.
    now apply parsed_plus_malformed.
  - apply Forall_forall. intros r Hr.
    apply in_map_iff in Hr. destruct Hr as (l & <- & Hin).
    apply filter_In in Hin. exists l. now split.
Qed.

Lemma parse_acl_config_accounts_witness :
  exists w,
    [skipping "permit everything"] = ([] ++ w)%list /\
    (length (aces {| aces := [scenario_1_ace] |}) + length w
       = S (count_char LF two_lines))%nat /\
    Forall (fun r => exists l, In l (Py.split LF two_lines) /\ r = skipping l) w.
Proof.
  apply (parse_acl_config_accounts two_lines []
           [skipping "permit everything"] {| aces := [scenario_1_ace] |}).
  vm_compute. reflexivity.
Defined.

Lemma parse_ace_config_empty_line :
  parse_ace_config EmptyString = Err (invalid_entry EmptyString).
Proof. reflexivity. Qed.

(** X7. Parsing two blocks joined by a line feed is parsing the first and
    then the second: when both parse, the entries of the joined block are
    the entries of the first followed by those of the second, and the
    log is the one left by the second call made after the first. *)
Theorem parse_acl_config_joined (a b : string) (log log1 log2 : list LogRecord)
    (al bl : AccessList) :
  parse_acl_config a log = (Ok al, log1) ->
  parse_acl_config b log1 = (Ok bl, log2) ->
  parse_acl_config (a ++ String LF b) log =
    (Ok {| aces := (aces al ++ aces bl)%list |}, log2).
Proof.
  intros Ha Hb.
  apply parse_acl_config_ok in Ha. apply parse_acl_config_ok in Hb.
  rewrite parse_acl_config_lines, split_app, parse_lines_app, Ha.
  rewrite parse_lines_acc in Hb.
  rewrite (parse_lines_acc _ (aces al) log1).
  injection Hb as Hr Hl. rewrite Hl.
  destruct (fst (parse_lines (Py.split LF b) [] [])) as [ r | e ];
    simpl in *; [ | discriminate Hr ].
  injection Hr as <-. reflexivity.
Qed.

Lemma parse_acl_config_joined_witness :
  parse_acl_config (scenario_1 ++ String LF "   0 permit ip any any") [] =
    (Ok {| aces := [scenario_1_ace; index_zero_ace] |}, []).
Proof.
  apply (parse_acl_config_joined scenario_1 "   0 permit ip any any" [] [] []
           {| aces := [scenario_1_ace] |} {| aces := [index_zero_ace] |});
    vm_compute; reflexivity.
Defined.

(** X8. A line feed at the end of a block that parses adds no entry and
    exactly one warning, for the empty line after it. *)
Theorem parse_acl_config_trailing_line_feed (acl : string)
    (log log' : list LogRecord) (al : AccessList) :
  parse_acl_config acl log = (Ok al, log') ->
  parse_acl_config (acl ++ String LF EmptyString) log =
    (Ok al, (log' ++ [skipping EmptyString])%list).
Proof.
  intros H. apply parse_acl_config_ok in H.
  rewrite parse_acl_config_lines, split_app, parse_lines_app, H.
  destruct al as [ l ]. reflexivity.
Qed.

Lemma parse_acl_config_trailing_line_feed_witness :
  parse_acl_config (scenario_1 ++ String LF EmptyString) [] =
    (Ok {| aces := [scenario_1_ace] |}, [skipping EmptyString]).
Proof.
  apply (parse_acl_config_trailing_line_feed scenario_1 [] []
           {| aces := [scenario_1_ace] |}).
  vm_compute. reflexivity.
Defined.

(** X9. The first line on which the single-line parser raises an
    exception other than [ParserExceptionInvalidEntry] ends the block
    parser with that exception: no access list is returned, the lines
    after it are not examined, and the log holds the warnings of the
    malformed lines before it only. *)
Theorem parse_acl_config_aborts (acl : string) (log : list LogRecord)
    (before after : list string) (l : string) (e : exn) :
  Py.split LF acl = (before ++ l :: after)%list ->
  Forall parses_or_malformed before ->
  parse_ace_config l = Err e ->
  (forall m, e <> ParserExceptionInvalidEntry m) ->
  parse_acl_config acl log =
    (Err e, (log ++ map skipping (filter malformed before))%list).
Proof.
  intros Hs Hb Hl Hne.
  rewrite parse_acl_config_lines, Hs, parse_lines_app.
  rewrite (parse_lines_total before [] log Hb).
  simpl. rewrite Hl.
  destruct e as [ m | m | | | | ]; try reflexivity.
  now destruct (Hne m).
Qed.

Lemma parse_acl_config_aborts_witness :
  parse_acl_config
    ("no entry" ++ String LF (bad_address ++ String LF scenario_1)) [] =
    (Err (IPv4Address.invalid "1.1.1"), [skipping "no entry"]).
Proof.
  apply (parse_acl_config_aborts _ [] ["no entry"%string] [scenario_1] bad_address).
  - vm_compute. reflexivity.
  - constructor; [ vm_compute; exact I | constructor ].
  - vm_compute. reflexivity.
  - intros m. discriminate.
Defined.

(** ** The single-line parser, continued *)

Lemma ace_pattern_sound (line : string) (g : Re.groups) :
  Re.search ace_pattern line = Some g ->
  exists sp num act proto rest tail,
    line = (sp ++ tail)%string /\
    all_chars is_space sp = true /\ (1 <= String.length sp)%nat /\
    digits num = true /\
    (act = "permit"%string \/ act = "deny"%string) /\
    g = [("line", rest); ("protocol", proto); ("action", act); ("number", num)]%string.
Proof.
  intros H. unfold ace_pattern in H. cbn [Re.cat] in H.
  apply search_bol_sound in H. cbn [wp] in H.
  destruct H as (sp & t0 & Hl & Hsp & Lsp & num & t1 & -> & Hnum & Lnum
                 & sp1 & t2 & -> & Hsp1 & Lsp1 & Hact).
  destruct Hact as [ Hact | Hact ]; apply wp_lit in Hact; try discriminate;
    destruct Hact as (t3 & -> & sp2 & t4 & -> & _ & _ & proto & t5 & -> & _ & _
                      & sp3 & t6 & -> & _ & _ & rest & t7 & -> & _ & _ & _ & <-);
    rewrite !substring_take by lia;
    [ exists sp, num, "permit"%string, proto, rest
    | exists sp, num, "deny"%string, proto, rest ];
    eexists; (split; [ exact Hl | ]);
    repeat split; auto using digits_of_run.
Qed.

Lemma ips_pattern_sound (s : string) (ips : Re.groups) :
  Re.search ips_pattern s = Some ips ->
  exists a b c d,
    Re.group ips "src_ip" = Some a /\ Re.group ips "src_wildcard" = Some b /\
    Re.group ips "dst_ip" = Some c /\ Re.group ips "dst_wildcard" = Some d /\
    port_ok (Re.group ips "src_port") /\ port_ok (Re.group ips "dst_port").
Proof.
  intros H. unfold ips_pattern in H. cbn [Re.cat] in H.
  apply search_bol_sound in H. cbn [wp] in H.
  repeat match goal with
         | H : exists _, _ |- _ => destruct H
         | H : _ /\ _ |- _ => destruct H
         | H : _ \/ _ |- _ => destruct H
         | H : wp (Re.lit _) _ _ _ _ |- _ => apply wp_lit in H; [ | discriminate ]
         end;
    subst; do 4 eexists; repeat split; try reflexivity;
    unfold port_ok; cbn [Re.group String.eqb Ascii.eqb Bool.eqb];
    try exact I;
    rewrite substring_take by lia; apply digits_of_run; assumption.
Qed.

Lemma init_in_range (arg : ip_arg) (a : IPv4Address.t) :
  IPv4Address.__init__ arg = Ok a -> in_range a.
Proof.
  unfold IPv4Address.__init__, in_range. intros H. inv_bind H.
  destruct ((a0 <? 0) || (a0 >=? 2 ^ 32)) eqn:Er;
    [ destruct (Py.renders a0); discriminate H | ].
  injection H as <-. now apply range_test in Er.
Qed.

Lemma init_str_error (s : string) (e : exn) :
  IPv4Address.__init__ (ArgStr s) = Err e ->
  (exists m, e = IPv4AddressException m) \/ e = ValueError.
Proof.
  rewrite init_of_str. intros H.
  destruct (from_string_cases s) as
    [ [ _ E ] | (d1 & d2 & d3 & d4 & _ & _ & _ & _ & _ & E) ].
  - rewrite E, bind_Err in H. injection H as <-. left.
    unfold IPv4Address.invalid. eauto.
  - destruct (Py.int d1); destruct (Py.int d2); destruct (Py.int d3);
      destruct (Py.int d4); rewrite E in H;
      try (rewrite bind_Err in H; injection H as <-; now right).
    rewrite bind_Ok, init_of_int in H.
    destruct (_ || _); [ | discriminate H ].
    destruct (Py.renders _); injection H as <-;
      [ left; unfold IPv4Address.invalid; eauto | now right ].
Qed.

(** The steps of [parse_ace_config], one by one. *)
Lemma parse_ace_config_steps (ace_config : string) :
  match Re.search ace_pattern ace_config with
  | None => parse_ace_config ace_config = Err (invalid_entry ace_config)
  | Some g =>
      exists num act proto rest a,
        digits num = true /\ AccessListAction_of_value act = Some a /\
        Re.group g "number" = Some num /\
        Re.group g "protocol" = Some proto /\
        match Py.int num, AccessListProtocol_of_value proto with
        | Some n, Some p =>
            match Re.search ips_pattern (substitute_keywords rest) with
            | None => parse_ace_config ace_config = Err (invalid_entry ace_config)
            | Some ips =>
                exists ts tw td tv,
                  port_ok (Re.group ips "src_port") /\
                  port_ok (Re.group ips "dst_port") /\
                  parse_ace_config ace_config =
                    let* sa := IPv4Address.__init__ (ArgStr ts) in
                    let* sw := IPv4Address.__init__ (ArgStr tw) in
                    let* da := IPv4Address.__init__ (ArgStr td) in
                    let* dw := IPv4Address.__init__ (ArgStr tv) in
                    Ok (AccessListEntry.mk n a p
                          (Some {| address := sa; wildcard_mask := sw |})
                          (Re.group ips "src_port")
                          (Some {| address := da; wildcard_mask := dw |})
                          (Re.group ips "dst_port"))
            end
        | _, _ => parse_ace_config ace_config = Err ValidationError
        end
  end.
Proof.
  unfold parse_ace_config.
  destruct (Re.search ace_pattern ace_config) as [ g | ] eqn:Eg; [ | reflexivity ].
  destruct (ace_pattern_sound _ _ Eg)
    as (sp & num & act & proto & rest & tail & _ & _ & _ & Hnum & Hact & ->).
  assert (Ha : exists a, AccessListAction_of_value act = Some a)
    by (destruct Hact as [ -> | -> ]; eexists; reflexivity).
  destruct Ha as [ a Ha ].
  exists num, act, proto, rest, a.
  split; [ exact Hnum | ]. split; [ exact Ha | ].
  split; [ reflexivity | ]. split; [ reflexivity | ].
  change (Re.group _ "number") with (Some num).
  change (Re.group _ "action") with (Some act).
  change (Re.group _ "protocol") with (Some proto).
  change (Re.group _ "line") with (Some rest).
  unfold AccessListEntry.__init__. rewrite Ha.
  destruct (Py.int num) as [ n | ]; [ | reflexivity ].
  destruct (AccessListProtocol_of_value proto) as [ p | ]; [ | reflexivity ].
  rewrite !bind_Ok.
  destruct (Re.search ips_pattern (substitute_keywords rest)) as [ ips | ] eqn:Ei;
    [ | reflexivity ].
  destruct (ips_pattern_sound _ _ Ei)
    as (ts & tw & td & tv & -> & -> & -> & -> & Hsp & Hdp).
  exists ts, tw, td, tv. split; [ exact Hsp | ]. split; [ exact Hdp | ].
  reflexivity.
Qed.

(** The entry that [parse_ace_config] returns, with the texts it was
    built from. *)
Lemma parse_ace_config_ok (line : string) (ace : AccessListEntry.t) :
  parse_ace_config line = Ok ace ->
  exists n a p ips ts tw td tv sa sw da dw,
    port_ok (Re.group ips "src_port") /\ port_ok (Re.group ips "dst_port") /\
    IPv4Address.__init__ (ArgStr ts) = Ok sa /\
    IPv4Address.__init__ (ArgStr tw) = Ok sw /\
    IPv4Address.__init__ (ArgStr td) = Ok da /\
    IPv4Address.__init__ (ArgStr tv) = Ok dw /\
    ace = AccessListEntry.mk n a p
            (Some {| address := sa; wildcard_mask := sw |})
            (Re.group ips "src_port")
            (Some {| address := da; wildcard_mask := dw |})
            (Re.group ips "dst_port").
Proof.
  intros H.
  pose proof (parse_ace_config_steps line) as S.
  destruct (Re.search ace_pattern line) as [ g | ];
    [ | rewrite S in H; discriminate H ].
  destruct S as (num & act & proto & rest & a & _ & _ & _ & _ & S).
  destruct (Py.int num) as [ n | ];
    [ | rewrite S in H; discriminate H ].
  destruct (AccessListProtocol_of_value proto) as [ p | ];
    [ | rewrite S in H; discriminate H ].
  destruct (Re.search ips_pattern (substitute_keywords rest)) as [ ips | ];
    [ | rewrite S in H; discriminate H ].
  destruct S as (ts & tw & td & tv & Hsp & Hdp & S).
  rewrite S in H.
  destruct (IPv4Address.__init__ (ArgStr ts)) as [ sa | ] eqn:E1;
    [ rewrite bind_Ok in H | discriminate H ].
  destruct (IPv4Address.__init__ (ArgStr tw)) as [ sw | ] eqn:E2;
    [ rewrite bind_Ok in H | discriminate H ].
  destruct (IPv4Address.__init__ (ArgStr td)) as [ da | ] eqn:E3;
    [ rewrite bind_Ok in H | discriminate H ].
  destruct (IPv4Address.__init__ (ArgStr tv)) as [ dw | ] eqn:E4;
    [ rewrite bind_Ok in H | discriminate H ].
  injection H as <-.
  exists n, a, p, ips, ts, tw, td, tv, sa, sw, da, dw. repeat split; assumption.
Qed.

(** The exceptions that [parse_ace_config] raises. *)
Lemma parse_ace_config_raises (line : string) (e : exn) :
  parse_ace_config line = Err e ->
  e = invalid_entry line \/ e = ValidationError \/
  (exists m, e = IPv4AddressException m) \/ e = ValueError.
Proof.
  intros H.
  pose proof (parse_ace_config_steps line) as S.
  destruct (Re.search ace_pattern line) as [ g | ];
    [ | rewrite S in H; injection H as <-; now left ].
  destruct S as (num & act & proto & rest & a & _ & _ & _ & _ & S).
  destruct (Py.int num) as [ n | ];
    [ | rewrite S in H; injection H as <-; auto ].
  destruct (AccessListProtocol_of_value proto) as [ p | ];
    [ | rewrite S in H; injection H as <-; auto ].
  destruct (Re.search ips_pattern (substitute_keywords rest)) as [ ips | ];
    [ | rewrite S in H; injection H as <-; now left ].
  destruct S as (ts & tw & td & tv & _ & _ & S).
  rewrite S in H. right. right.
  destruct (IPv4Address.__init__ (ArgStr ts)) eqn:E1;
    [ rewrite bind_Ok in H
    | rewrite bind_Err in H; injection H as <-; now apply (init_str_error ts) ].
  destruct (IPv4Address.__init__ (ArgStr tw)) eqn:E2;
    [ rewrite bind_Ok in H
    | rewrite bind_Err in H; injection H as <-; now apply (init_str_error tw) ].
  destruct (IPv4Address.__init__ (ArgStr td)) eqn:E3;
    [ rewrite bind_Ok in H
    | rewrite bind_Err in H; injection H as <-; now apply (init_str_error td) ].
  destruct (IPv4Address.__init__ (ArgStr tv)) eqn:E4;
    [ rewrite bind_Ok in H
    | rewrite bind_Err in H; injection H as <-; now apply (init_str_error tv) ].
  discriminate H.
Qed.

(** X10. Every exception that the single-line parser raises is one of
    four: [ParserExceptionInvalidEntry] naming the line, the validation
    error of the model, [IPv4AddressException], or the [ValueError] of a
    conversion between [int] and [str] beyond 4300 digits.  So it is an
    instance of [NetDeviceParserException] or of [ValueError], and never
    a [TypeError] or an [AttributeError]. *)
Theorem parse_ace_config_exceptions (line : string) (e : exn) :
  parse_ace_config line = Err e ->
  (e = invalid_entry line \/ e = ValidationError \/
   (exists m, e = IPv4AddressException m) \/ e = ValueError) /\
  (isinstance e Exceptions.NetDeviceParserException = true \/
   isinstance e Exceptions.ValueError = true) /\
  isinstance e Exceptions.TypeError = false /\
  isinstance e Exceptions.AttributeError = false.
Proof.
  intros H. pose proof (parse_ace_config_raises _ _ H) as R.
  split; [ exact R | ].
  destruct R as [ -> | [ -> | [ [ m -> ] | -> ] ] ]; repeat split; auto.
Qed.

Lemma parse_ace_config_exceptions_witness :
  (ValidationError = invalid_entry "   10 permit gre any any" \/
   ValidationError = ValidationError \/
   (exists m, ValidationError = IPv4AddressException m) \/
   ValidationError = ValueError) /\
  (isinstance ValidationError Exceptions.NetDeviceParserException = true \/
   isinstance ValidationError Exceptions.ValueError = true) /\
  isinstance ValidationError Exceptions.TypeError = false /\
  isinstance ValidationError Exceptions.AttributeError = false.
Proof.
  apply (parse_ace_config_exceptions "   10 permit gre any any" ValidationError).
  vm_compute. reflexivity.
Defined.

(** X11. A line that is empty or does not start with white space is
    refused with [ParserExceptionInvalidEntry], whatever follows. *)
Theorem parse_ace_config_needs_indent (line : string) :
  stops is_space line = true ->
  parse_ace_config line = Err (invalid_entry line).
Proof.
  intros Hst.
  pose proof (parse_ace_config_steps line) as S.
  destruct (Re.search ace_pattern line) as [ g | ] eqn:Eg; [ | exact S ].
  destruct (ace_pattern_sound _ _ Eg)
    as (sp & num & act & proto & rest & tail & -> & Hsp & Lsp & _).
  destruct sp as [ | c sp ]; [ simpl in Lsp; lia | ].
  simpl in Hst, Hsp. apply andb_true_iff in Hsp. destruct Hsp as [ Hc _ ].
  rewrite Hc in Hst. discriminate Hst.
Qed.

Lemma parse_ace_config_needs_indent_witness :
  parse_ace_config "10 permit tcp any host 10.0.0.5 eq 80" =
    Err (invalid_entry "10 permit tcp any host 10.0.0.5 eq 80").
Proof.
  apply (parse_ace_config_needs_indent "10 permit tcp any host 10.0.0.5 eq 80").
  reflexivity.
Defined.

(** X12. In every entry that the single-line parser returns, each port is
    absent or a non-empty text of decimal digits. *)
Theorem parse_ace_config_ports (line : string) (ace : AccessListEntry.t) :
  parse_ace_config line = Ok ace ->
  port_ok (AccessListEntry.source_port ace) /\
  port_ok (AccessListEntry.destination_port ace).
Proof.
  intros H.
  destruct (parse_ace_config_ok _ _ H)
    as (n & a & p & ips & ts & tw & td & tv & sa & sw & da & dw
        & Hsp & Hdp & _ & _ & _ & _ & ->).
  simpl. now split.
Qed.

Lemma parse_ace_config_ports_witness :
  port_ok (AccessListEntry.source_port scenario_1_ace) /\
  port_ok (AccessListEntry.destination_port scenario_1_ace).
Proof.
  apply (parse_ace_config_ports scenario_1 scenario_1_ace).
  vm_compute. reflexivity.
Defined.

(** X13. In every entry that the single-line parser returns, the two
    addresses and the two wildcard masks are in the unsigned 32-bit
    range. *)
Theorem parse_ace_config_addresses_in_range (line : string) (ace : AccessListEntry.t) :
  parse_ace_config line = Ok ace ->
  exists src dst,
    AccessListEntry.source_ipv4 ace = Some src /\
    AccessListEntry.destination_ipv4 ace = Some dst /\
    in_range (address src) /\ in_range (wildcard_mask src) /\
    in_range (address dst) /\ in_range (wildcard_mask dst).
Proof.
  intros H.
  destruct (parse_ace_config_ok _ _ H)
    as (n & a & p & ips & ts & tw & td & tv & sa & sw & da & dw
        & _ & _ & E1 & E2 & E3 & E4 & ->).
  do 2 eexists. split; [ reflexivity | ]. split; [ reflexivity | ].
  simpl. repeat split; eapply init_in_range; eassumption.
Qed.

Lemma parse_ace_config_addresses_in_range_witness :
  exists src dst,
    AccessListEntry.source_ipv4 scenario_1_ace = Some src /\
    AccessListEntry.destination_ipv4 scenario_1_ace = Some dst /\
    in_range (address src) /\ in_range (wildcard_mask src) /\
    in_range (address dst) /\ in_range (wildcard_mask dst).
Proof.
  apply (parse_ace_config_addresses_in_range scenario_1 scenario_1_ace).
  vm_compute. reflexivity.
Defined.

(** ** The rewriting of the keywords, continued *)

Lemma all_chars_app (p : ascii -> bool) (a b : string) :
  all_chars p (a ++ b) = all_chars p a && all_chars p b.
Proof.
  induction a as [ | c a IH ]; simpl; [ reflexivity | ].
  now rewrite IH, andb_assoc.
Qed.

Lemma all_chars_weaken (p q : ascii -> bool) (s : string) :
  (forall c, p c = true -> q c = true) ->
  all_chars p s = true -> all_chars q s = true.
Proof.
  intros Hpq. induction s as [ | c s IH ]; simpl; [ reflexivity | ].
  intros H. apply andb_true_iff in H. destruct H as [ Hc H ].
  now rewrite (Hpq c Hc), IH.
Qed.

Lemma no_keyword_letter_a (s : string) :
  all_chars no_keyword_letter s = true -> all_chars not_a s = true.
Proof.
  apply all_chars_weaken. unfold no_keyword_letter. intros c H.
  now apply andb_true_iff in H.
Qed.

Lemma no_keyword_letter_h (s : string) :
  all_chars no_keyword_letter s = true -> all_chars not_h s = true.
Proof.
  apply all_chars_weaken. unfold no_keyword_letter. intros c H.
  now apply andb_true_iff in H.
Qed.

Lemma ipchar_no_keyword_letter (s : string) :
  all_chars is_ipchar s = true -> all_chars no_keyword_letter s = true.
Proof.
  apply all_chars_weaken. intros c.
  unfold is_ipchar, is_digit, no_keyword_letter, not_a, not_h, code.
  destruct (Ascii.eqb "a" c) eqn:Ea; [ apply Ascii.eqb_eq in Ea; now subst c | ].
  destruct (Ascii.eqb "h" c) eqn:Eh; [ apply Ascii.eqb_eq in Eh; now subst c | ].
  reflexivity.
Qed.

(** Without the letter [a] there is no [any] to replace. *)
Lemma replace_without_a (s : string) :
  all_chars not_a s = true -> Py.replace "any" ANY s = s.
Proof.
  unfold Py.replace.
  induction s as [ | c s IH ]; intros H; [ reflexivity | ].
  simpl in H. apply andb_true_iff in H. destruct H as [ Hc H ].
  rewrite replace_any_step.
  assert (E : Py.startswith "any" (String c s) = false).
  { cbn [Py.startswith]. unfold not_a in Hc. apply negb_true_iff in Hc.
    now rewrite Hc. }
  rewrite E. now rewrite IH.
Qed.

(** Without the letter [h] there is no [host] to replace. *)
Lemma sub_host_without_h (s : string) :
  all_chars not_h s = true -> forall pos, sub_host pos 0%nat s = s.
Proof.
  unfold sub_host.
  induction s as [ | c s IH ]; intros H pos; [ reflexivity | ].
  simpl in H. apply andb_true_iff in H. destruct H as [ Hc H ].
  cbn [Re.sub_from]. rewrite match_at_host.
  assert (E : host_at (String c s) = None).
  { unfold host_at. cbn [Py.startswith]. unfold not_h in Hc.
    apply negb_true_iff in Hc. now rewrite Hc. }
  rewrite E. now rewrite IH.
Qed.

(** X14. A remainder that holds neither the letter [a] nor the letter
    [h] (addresses, masks, white space, [eq] and ports) is left as it is
    by the rewriting of the keywords. *)
Theorem substitute_keywords_unchanged (line : string) :
  all_chars no_keyword_letter line = true ->
  substitute_keywords line = line.
Proof.
  intros H. unfold substitute_keywords. fold ANY.
  rewrite (replace_without_a _ (no_keyword_letter_a _ H)).
  apply (sub_host_without_h _ (no_keyword_letter_h _ H)).
Qed.

Lemma substitute_keywords_unchanged_witness :
  substitute_keywords "192.168.1.0 0.0.0.255 eq 22 10.0.0.5 0.0.0.0 eq 80"
    = "192.168.1.0 0.0.0.255 eq 22 10.0.0.5 0.0.0.0 eq 80"%string.
Proof.
  apply (substitute_keywords_unchanged
           "192.168.1.0 0.0.0.255 eq 22 10.0.0.5 0.0.0.0 eq 80").
  reflexivity.
Defined.

(** X15. Between two texts that hold neither [a] nor [h], the keyword
    [any] is rewritten to [0.0.0.0 255.255.255.255] and the texts are
    left as they are. *)
Theorem substitute_keywords_any (a b : string) :
  all_chars no_keyword_letter a = true ->
  all_chars no_keyword_letter b = true ->
  substitute_keywords (a ++ "any" ++ b) = (a ++ ANY ++ b)%string.
Proof.
  intros Ha Hb. unfold substitute_keywords. fold ANY.
  unfold Py.replace at 1. rewrite replace_any_app by lia.
  fold (Py.replace "any" ANY a).
  rewrite (replace_without_a _ (no_keyword_letter_a _ Ha)).
  rewrite (replace_without_a _ (no_keyword_letter_a _ Hb)).
  apply (sub_host_without_h (a ++ ANY ++ b)).
  rewrite !all_chars_app.
  rewrite (no_keyword_letter_h _ Ha), (no_keyword_letter_h _ Hb).
  reflexivity.
Qed.

Lemma substitute_keywords_any_witness :
  substitute_keywords ("10.0.0.0 0.0.0.255 eq 22 " ++ "any" ++ " eq 80")
    = "10.0.0.0 0.0.0.255 eq 22 0.0.0.0 255.255.255.255 eq 80"%string.
Proof.
  apply (substitute_keywords_any "10.0.0.0 0.0.0.255 eq 22 " " eq 80");
    reflexivity.
Defined.

(** X16. Between two texts that hold neither [a] nor [h], the keyword
    [host] followed by a space and an address is rewritten to the address
    followed by [ 0.0.0.0] (the address is a non-empty run of digits and
    dots that the text after it does not extend). *)
Theorem substitute_keywords_host (a ip b : string) :
  all_chars no_keyword_letter a = true ->
  all_chars no_keyword_letter b = true ->
  all_chars is_ipchar ip = true -> ip <> EmptyString ->
  stops is_ipchar b = true ->
  substitute_keywords (a ++ "host " ++ ip ++ b) = (a ++ ip ++ " 0.0.0.0" ++ b)%string.
Proof.
  intros Ha Hb Hip Hne Hst. unfold substitute_keywords. fold ANY.
  rewrite replace_without_a.
  - unfold Re.sub. fold sub_host.
    change ("host " ++ ip ++ b)%string with (String "h" ("ost " ++ ip ++ b)).
    rewrite sub_host_app by lia.
    change (String "h" ("ost " ++ ip ++ b)) with ("host " ++ ip ++ b)%string.
    rewrite sub_host_match by assumption.
    rewrite (sub_host_without_h _ (no_keyword_letter_h _ Ha)).
    rewrite (sub_host_without_h _ (no_keyword_letter_h _ Hb)).
    reflexivity.
  - rewrite !all_chars_app.
    rewrite (no_keyword_letter_a _ Ha), (no_keyword_letter_a _ Hb).
    rewrite (no_keyword_letter_a _ (ipchar_no_keyword_letter _ Hip)).
    reflexivity.
Qed.

Lemma substitute_keywords_host_witness :
  substitute_keywords ("10.0.0.0 0.0.0.255 " ++ "host " ++ "10.0.0.5" ++ " eq 80")
    = "10.0.0.0 0.0.0.255 10.0.0.5 0.0.0.0 eq 80"%string.
Proof.
  apply (substitute_keywords_host "10.0.0.0 0.0.0.255 " "10.0.0.5" " eq 80");
    try reflexivity.
  discriminate.
Defined.

(** ** Exceptions *)

(** X18. An exception that leaves the block parser is an
    [IPv4AddressException], the validation error of the model or a
    [ValueError]: by the class hierarchy it is an instance of
    [IPAddressException] or of [ValueError], and never of
    [AccessListParserException]. *)
Theorem parse_acl_config_escapes (acl : string) (log log' : list LogRecord) (e : exn) :
  parse_acl_config acl log = (Err e, log') ->
  ((exists m, e = IPv4AddressException m) \/ e = ValidationError \/ e = ValueError) /\
  (isinstance e Exceptions.IPAddressException = true \/
   isinstance e Exceptions.ValueError = true) /\
  isinstance e Exceptions.AccessListParserException = false.
Proof.
  rewrite parse_acl_config_lines. intros H.
  destruct (parse_lines (Py.split LF acl) [] log) as [ [ r | e' ] l ] eqn:E;
    simpl in H; [ discriminate H | ].
  injection H as -> ->.
  destruct (parse_lines_failure _ _ _ _ _ E) as (Hne & l & _ & Hl).
  destruct (parse_ace_config_raises _ _ Hl) as [ -> | [ -> | [ [ m -> ] | -> ] ] ].
  - now destruct (Hne ("ACE not a valid Cisco IOS XE Entry: " ++ quoted l)%string).
  - repeat split; auto.
  - repeat split; eauto.
  - repeat split; auto.
Qed.

Lemma parse_acl_config_escapes_witness :
  ((exists m, IPv4Address.invalid "1.1.1" = IPv4AddressException m) \/
   IPv4Address.invalid "1.1.1" = ValidationError \/
   IPv4Address.invalid "1.1.1" = ValueError) /\
  (isinstance (IPv4Address.invalid "1.1.1") Exceptions.IPAddressException = true \/
   isinstance (IPv4Address.invalid "1.1.1") Exceptions.ValueError = true) /\
  isinstance (IPv4Address.invalid "1.1.1") Exceptions.AccessListParserException = false.
Proof.
  apply (parse_acl_config_escapes bad_address [] [] (IPv4Address.invalid "1.1.1")).
  vm_compute. reflexivity.
Defined.

(** ** Lines of the expected form *)

Lemma stops_app (p q : ascii -> bool) (s t : string) :
  (forall c, q c = true -> p c = false) ->
  all_chars q s = true -> s <> EmptyString -> stops p (s ++ t) = true.
Proof.
  intros Hqp Hs Hne. destruct s as [ | c s ]; [ congruence | ].
  simpl in *. apply andb_true_iff in Hs. destruct Hs as [ Hc _ ].
  now rewrite (Hqp c Hc).
Qed.

Lemma length_nonempty (s : string) : s <> EmptyString -> (1 <= String.length s)%nat.
Proof. destruct s; [ congruence | simpl; lia ]. Qed.

Lemma orelse_some {A : Type} (e alt : option A) (r : A) :
  e = Some r ->
  match e with Some x => Some x | None => alt end = Some r.
Proof. now intros ->. Qed.

Lemma digit_not_space (c : ascii) : is_digit c = true -> is_space c = false.
Proof.
  unfold is_digit, is_space, code. intros H.
  apply andb_true_iff in H. destruct H as [ H1 H2 ].
  apply Nat.leb_le in H1. apply Nat.leb_le in H2.
  repeat (apply orb_false_iff; split);
    try (apply andb_false_iff; (left; apply Nat.leb_gt; lia) || (right; apply Nat.leb_gt; lia));
    apply Nat.eqb_neq; lia.
Qed.

Lemma space_not_digit (c : ascii) : is_space c = true -> is_digit c = false.
Proof.
  intros H. destruct (is_digit c) eqn:E; [ | reflexivity ].
  apply digit_not_space in E. congruence.
Qed.

Lemma nonspace_not_space (c : ascii) : is_nonspace c = true -> is_space c = false.
Proof. unfold is_nonspace. apply negb_true_iff. Qed.

Lemma space_not_nonspace (c : ascii) : is_space c = true -> is_nonspace c = false.
Proof. unfold is_nonspace. intros ->. reflexivity. Qed.

Lemma add_sub_l (a b : nat) : (a + b - a)%nat = b.
Proof. lia. Qed.

(** One space before a text that does not start with white space. *)
Lemma rep_one_space {A : Type} (min pos : nat) (t : string)
    (k : nat -> string -> option A) (x : A) :
  stops is_space t = true -> (min <= 1)%nat ->
  k (pos + 1)%nat t = Some x ->
  Re.rep is_space min 0 pos (String " " t) k = Some x.
Proof.
  intros Ht Hmin Hk.
  change (String " " t) with (" " ++ t)%string.
  apply rep_run; [ reflexivity | exact Ht | simpl; lia | exact Hk ].
Qed.

(** The pattern of the header on a line made of an indent, an index, an
    action, a protocol and a remainder, separated by single spaces. *)
Lemma ace_pattern_matches (sp num act proto rest : string) :
  all_chars is_space sp = true -> sp <> EmptyString ->
  digits num = true ->
  act = "permit"%string \/ act = "deny"%string ->
  all_chars is_nonspace proto = true -> proto <> EmptyString ->
  all_chars is_dot rest = true -> rest <> EmptyString ->
  stops is_space rest = true ->
  Re.search ace_pattern
    (sp ++ num ++ " " ++ act ++ " " ++ proto ++ " " ++ rest) =
    Some [("line", rest); ("protocol", proto); ("action", act); ("number", num)]%string.
Proof.
  intros Hsp Nsp Hnum Hact Hproto Nproto Hrest Nrest Srest.
  pose proof (digits_all _ Hnum) as Anum.
  pose proof (digits_length _ Hnum) as Lnum.
  pose proof (length_nonempty _ Nsp) as Lsp.
  pose proof (length_nonempty _ Nproto) as Lproto.
  pose proof (length_nonempty _ Nrest) as Lrest.
  assert (Nnum : num <> EmptyString) by (destruct num; [ discriminate Hnum | discriminate ]).
  destruct Hact as [ -> | -> ].
  all: match goal with
       | |- Re.search _ ?line = Some ?g =>
           enough (exists n, Re.match_at ace_pattern 0 line = Some (n, g))
             as [ n Hn ]; [ exact (search_of_match_at _ _ _ _ Hn) | ]
       end.
  all: eexists; unfold Re.match_at, ace_pattern.
  all: cbn [Re.cat Re.rmatch Nat.eqb].
  all: apply rep_run;
    [ exact Hsp | apply (stops_app _ is_digit); auto using digit_not_space | lia | ].
  all: apply rep_run; [ exact Anum | reflexivity | lia | ].
  all: rewrite substring_take by lia.
  all: cbn [append].
  all: apply rep_one_space; [ reflexivity | lia | ].
  all: rewrite !rmatch_lit by discriminate.
  all: cbn [Py.startswith append Ascii.eqb Bool.eqb andb drop String.length].
  1: apply orelse_some.
  all: apply rep_one_space;
    [ apply (stops_app _ is_nonspace); auto using nonspace_not_space | lia | ].
  all: apply rep_run; [ exact Hproto | reflexivity | lia | ].
  all: apply rep_one_space; [ exact Srest | lia | ].
  all: apply rep_run_end; [ exact Hrest | lia | ].
  all: rewrite !add_sub_l, substring_whole, substring_run.
  all: reflexivity.
Qed.

Lemma ipchar_not_space (c : ascii) : is_ipchar c = true -> is_space c = false.
Proof.
  unfold is_ipchar. intros H. apply orb_true_iff in H.
  destruct H as [ H | H ]; [ now apply digit_not_space | ].
  apply Ascii.eqb_eq in H. now subst c.
Qed.

Lemma stops_all (p q : ascii -> bool) (s : string) :
  (forall c, q c = true -> p c = false) ->
  all_chars q s = true -> s <> EmptyString -> stops p s = true.
Proof.
  intros Hqp Hs Hne. rewrite <- (append_empty_r s). now apply (stops_app p q).
Qed.

Lemma startswith_eq_ipchar (t rest : string) :
  all_chars is_ipchar t = true -> t <> EmptyString ->
  Py.startswith "eq" (t ++ rest) = false.
Proof.
  intros Ht Hne. destruct t as [ | c t ]; [ congruence | ].
  simpl in Ht. apply andb_true_iff in Ht. destruct Ht as [ Hc _ ].
  cbn [append Py.startswith].
  destruct (Ascii.eqb "e" c) eqn:E; [ | reflexivity ].
  apply Ascii.eqb_eq in E. subst c. discriminate Hc.
Qed.

Ltac stops_goal :=
  first
    [ reflexivity
    | apply (stops_app _ is_ipchar); [ exact ipchar_not_space | assumption | assumption ]
    | apply (stops_app _ is_digit);
        [ exact digit_not_space | apply digits_all; assumption
        | intros ->; discriminate ]
    | apply (stops_all _ is_digit);
        [ exact digit_not_space | apply digits_all; assumption
        | intros ->; discriminate ] ].

Ltac take_run :=
  apply rep_run;
  [ first [ assumption | apply digits_all; assumption ] | reflexivity
  | first [ lia | apply digits_length; assumption ] | ];
  rewrite substring_take by lia.

Ltac take_space := apply rep_one_space; [ stops_goal | lia | ].

Ltac skip_port :=
  rewrite rmatch_lit by discriminate;
  first [ rewrite startswith_eq_ipchar by assumption | cbn [Py.startswith] ];
  cbv iota.

Ltac take_eq :=
  apply orelse_some; rewrite rmatch_lit by discriminate;
  cbn [Py.startswith Ascii.eqb Bool.eqb andb drop String.length].

(** The pattern of the addresses on a text of the expected form. *)
Lemma ips_pattern_matches (ts tw td tv : string) (sport dport : option string) :
  all_chars is_ipchar ts = true -> ts <> EmptyString ->
  all_chars is_ipchar tw = true -> tw <> EmptyString ->
  all_chars is_ipchar td = true -> td <> EmptyString ->
  all_chars is_ipchar tv = true -> tv <> EmptyString ->
  port_ok sport -> port_ok dport ->
  exists ips,
    Re.search ips_pattern (address_text ts tw sport td tv dport) = Some ips /\
    Re.group ips "src_ip" = Some ts /\ Re.group ips "src_wildcard" = Some tw /\
    Re.group ips "dst_ip" = Some td /\ Re.group ips "dst_wildcard" = Some tv /\
    Re.group ips "src_port" = sport /\ Re.group ips "dst_port" = dport.
Proof.
  intros Hts Nts Htw Ntw Htd Ntd Htv Ntv Hsport Hdport.
  pose proof (length_nonempty _ Nts) as Lts. pose proof (length_nonempty _ Ntw) as Ltw.
  pose proof (length_nonempty _ Ntd) as Ltd. pose proof (length_nonempty _ Ntv) as Ltv.
  enough (exists n ips,
            Re.match_at ips_pattern 0 (address_text ts tw sport td tv dport)
              = Some (n, ips) /\
            Re.group ips "src_ip" = Some ts /\ Re.group ips "src_wildcard" = Some tw /\
            Re.group ips "dst_ip" = Some td /\ Re.group ips "dst_wildcard" = Some tv /\
            Re.group ips "src_port" = sport /\ Re.group ips "dst_port" = dport)
    as (n & ips & Hm & Hg).
  { exists ips. split; [ exact (search_of_match_at _ _ _ _ Hm) | exact Hg ]. }
  unfold address_text.
  destruct sport as [ ps | ], dport as [ pd | ]; simpl in Hsport, Hdport.
  all: try pose proof (digits_length _ Hsport) as Lps.
  all: try pose proof (digits_length _ Hdport) as Lpd.
  all: do 2 eexists.
  all: unfold Re.match_at, ips_pattern, with_src_port, dst_port_text.
  all: cbn [Re.cat Re.rmatch Nat.eqb append].
  - split.
    + take_run. take_space. take_run. take_space.
      take_eq. take_space. take_run. take_space.
      take_run. take_space. take_run. take_space.
      take_eq. take_space.
      apply rep_run_end; [ now apply digits_all | lia | ].
      rewrite add_sub_l, substring_whole. reflexivity.
    + repeat split; reflexivity.
  - split.
    + take_run. take_space. take_run. take_space.
      take_eq. take_space. take_run. take_space.
      take_run. take_space. take_run.
      cbn [Re.rep Nat.leb]. skip_port.
      reflexivity.
    + repeat split; reflexivity.
  - split.
    + take_run. take_space. take_run. take_space.
      skip_port.
      take_run. take_space. take_run. take_space.
      take_eq. take_space.
      apply rep_run_end; [ now apply digits_all | lia | ].
      rewrite add_sub_l, substring_whole. reflexivity.
    + repeat split; reflexivity.
  - split.
    + take_run. take_space. take_run. take_space.
      skip_port.
      take_run. take_space. take_run.
      cbn [Re.rep Nat.leb]. skip_port.
      reflexivity.
    + repeat split; reflexivity.
Qed.

Lemma action_of_value_cases (act : string) (a : AccessListAction) :
  AccessListAction_of_value act = Some a ->
  act = "permit"%string \/ act = "deny"%string.
Proof.
  unfold AccessListAction_of_value.
  destruct (String.eqb act "deny") eqn:Ed;
    [ apply String.eqb_eq in Ed; auto | ].
  destruct (String.eqb act "permit") eqn:Ep;
    [ apply String.eqb_eq in Ep; auto | discriminate ].
Qed.

Lemma protocol_of_value_token (proto : string) (p : AccessListProtocol) :
  AccessListProtocol_of_value proto = Some p ->
  all_chars is_nonspace proto = true /\ proto <> EmptyString.
Proof.
  unfold AccessListProtocol_of_value.
  destruct (String.eqb proto "ip") eqn:E1;
    [ apply String.eqb_eq in E1; subst; now split | ].
  destruct (String.eqb proto "udp") eqn:E2;
    [ apply String.eqb_eq in E2; subst; now split | ].
  destruct (String.eqb proto "tcp") eqn:E3;
    [ apply String.eqb_eq in E3; subst; now split | ].
  destruct (String.eqb proto "icmp") eqn:E4;
    [ apply String.eqb_eq in E4; subst; now split | discriminate ].
Qed.

Lemma init_nonempty (t : string) (a : IPv4Address.t) :
  IPv4Address.__init__ (ArgStr t) = Ok a -> t <> EmptyString.
Proof. intros H ->. discriminate H. Qed.

(** X19. A line of the expected form parses to the entry of its tokens.
    The line is an indent of white space, an index in decimal digits, an
    action, a protocol of the enumeration and a remainder, separated by
    single spaces; the remainder, once the keywords are rewritten, is a
    source address and mask, an optional [eq] port, a destination address
    and mask and an optional [eq] port, separated by single spaces, the
    four addresses being texts that [IPv4Address] accepts.  The entry has
    the value of the index, the members named by the action and the
    protocol, the four addresses and the ports as written. *)
Theorem parse_ace_config_expected_form
    (sp num act proto rest ts tw td tv : string) (sport dport : option string)
    (n : Z) (a : AccessListAction) (p : AccessListProtocol)
    (sa sw da dw : IPv4Address.t) :
  all_chars is_space sp = true -> sp <> EmptyString ->
  Py.int num = Some n ->
  AccessListAction_of_value act = Some a ->
  AccessListProtocol_of_value proto = Some p ->
  all_chars is_dot rest = true -> rest <> EmptyString ->
  stops is_space rest = true ->
  substitute_keywords rest = address_text ts tw sport td tv dport ->
  all_chars is_ipchar ts = true -> all_chars is_ipchar tw = true ->
  all_chars is_ipchar td = true -> all_chars is_ipchar tv = true ->
  IPv4Address.__init__ (ArgStr ts) = Ok sa ->
  IPv4Address.__init__ (ArgStr tw) = Ok sw ->
  IPv4Address.__init__ (ArgStr td) = Ok da ->
  IPv4Address.__init__ (ArgStr tv) = Ok dw ->
  port_ok sport -> port_ok dport ->
  parse_ace_config (ace_line sp num act proto rest) =
    Ok (AccessListEntry.mk n a p
          (Some {| address := sa; wildcard_mask := sw |}) sport
          (Some {| address := da; wildcard_mask := dw |}) dport).
Proof.
  intros Hsp Nsp Hn Ha Hp Hrest Nrest Srest Hsub Its Itw Itd Itv
         Hsa Hsw Hda Hdw Hsport Hdport.
  destruct (protocol_of_value_token _ _ Hp) as [ Hproto Nproto ].
  destruct (ips_pattern_matches ts tw td tv sport dport)
    as (ips & Hips & G1 & G2 & G3 & G4 & G5 & G6);
    eauto using init_nonempty.
  unfold parse_ace_config, ace_line.
  rewrite ace_pattern_matches;
    eauto using int_is_digits, action_of_value_cases.
  change (Re.group _ "number") with (Some num).
  change (Re.group _ "action") with (Some act).
  change (Re.group _ "protocol") with (Some proto).
  change (Re.group _ "line") with (Some rest).
  unfold AccessListEntry.__init__. rewrite Hn, Ha, Hp.
  rewrite !bind_Ok. rewrite Hsub, Hips, G1, G2, G3, G4, G5, G6.
  unfold arg_of_group. rewrite Hsa, Hsw, Hda, Hdw.
  reflexivity.
Qed.

Lemma parse_ace_config_expected_form_witness :
  parse_ace_config (ace_line "   " "10" "permit" "tcp" "any host 10.0.0.5 eq 80") =
    Ok (AccessListEntry.mk 10 PERMIT TCP
          (Some {| address := IPv4Address.mk 0;
                   wildcard_mask := IPv4Address.mk 4294967295 |}) None
          (Some {| address := IPv4Address.mk 167772165;
                   wildcard_mask := IPv4Address.mk 0 |}) (Some "80"%string)).
Proof.
  apply (parse_ace_config_expected_form
           "   " "10" "permit" "tcp" "any host 10.0.0.5 eq 80"
           "0.0.0.0" "255.255.255.255" "10.0.0.5" "0.0.0.0" None (Some "80"%string));
    try reflexivity; try discriminate.
Defined.
